(** * npoint-vpn: magic-link login tokens and the e-mail / reporter fan-out

    A shallow embedding of

    - [app/models/email_notification.py]  (trigger enum, SMTP settings validation),
    - [app/utils/email_notifications.py]  (the cached [EmailNotificationManager]),
    - [app/utils/report.py]               (the lifecycle-event entry points),
    - [app/routers/email_notifications.py] (the configuration write),
    - [app/routers/portal.py]             (magic-link request and verification),

    followed by the properties of the specification that concern them.
    Python dictionaries are [gmap]s, [None]-able values are [option]s, raised
    exceptions are the [Raise] outcome of a small state-and-exception monad whose
    state carries the database, the process-wide cache and the trace of calls made
    to the outside world (reporter channels, notification sink, SMTP transport). *)

From Stdlib Require Import ZArith String Ascii List Bool Lia.
From stdpp Require Import base option list strings gmap fin_maps.

Local Open Scope Z_scope.
Local Open Scope string_scope.

(** ** Python values and the string builtins the code relies on *)

Module Py.

(** The dynamically typed values that travel through payload and context
    dictionaries.  A float is only ever tested against [None] and rendered
    with [str()], so it is carried as that rendering.  [VObj] is an object
    that may or may not have a [username] attribute (an [Admin]). *)
Inductive Val : Type :=
| VNone
| VBool (b : bool)
| VInt (z : Z)
| VFloat (repr : string)
| VStr (s : string)
| VObj (username : option string).

#[global] Instance Val_eq_dec : EqDecision Val.
Proof. solve_decision. Defined.

Definition str_truthy (s : string) : bool := negb (String.eqb s "").

(** [bool(v)] *)
Definition truthy (v : Val) : bool :=
  match v with
  | VNone => false
  | VBool b => b
  | VInt z => negb (Z.eqb z 0)
  | VFloat r => negb (String.eqb r "0.0" || String.eqb r "-0.0")
  | VStr s => str_truthy s
  | VObj _ => true
  end.

(** [bool(o)] for an [Optional[str]] *)
Definition opt_truthy (o : option string) : bool :=
  match o with
  | Some s => str_truthy s
  | None => false
  end.

(** [a or b] on optional strings *)
Definition opt_or (a b : option string) : option string :=
  if opt_truthy a then a else b.

(** [d.get(k)]: a missing key reads as [None] *)
Definition dict_get (d : gmap string Val) (k : string) : Val :=
  default VNone (d !! k).

Definition digit (n : Z) : string :=
  String (ascii_of_nat (Z.to_nat (48 + n))) EmptyString.

Fixpoint str_pos (fuel : nat) (n : Z) : string :=
  match fuel with
  | O => ""
  | S fuel' => if Z.ltb n 10 then digit n else str_pos fuel' (n / 10) +:+ digit (n mod 10)
  end.

(** [str(n)] for an integer *)
Definition str_int (n : Z) : string :=
  if Z.ltb n 0 then "-" +:+ str_pos (S (Z.to_nat (Z.log2 (- n)))) (- n)
  else str_pos (S (Z.to_nat (Z.log2 n))) n.

(** [str(v)], the rendering an f-string uses *)
Definition str (v : Val) : string :=
  match v with
  | VNone => "None"
  | VBool true => "True"
  | VBool false => "False"
  | VInt z => str_int z
  | VFloat r => r
  | VStr s => s
  | VObj _ => "<object>"
  end.

(** Strings are the bytes of UTF-8 text.  Removing or splitting at an ASCII
    character is the same on bytes as on code points, which is all
    [rstrip_slash] and [before_comma] do; [str.strip()] and [str.lower()]
    depend on the Unicode character tables and are left open (see the
    section's variables). *)
Fixpoint rstrip_by (p : ascii -> bool) (s : string) : string :=
  match s with
  | EmptyString => EmptyString
  | String a s' =>
      match rstrip_by p s' with
      | EmptyString => if p a then EmptyString else String a EmptyString
      | r => String a r
      end
  end.

(** [s.rstrip("/")] *)
Definition rstrip_slash (s : string) : string :=
  rstrip_by (fun a => Ascii.eqb a "/"%char) s.

(** [s.split(",")[0]] *)
Fixpoint before_comma (s : string) : string :=
  match s with
  | EmptyString => EmptyString
  | String a s' => if Ascii.eqb a ","%char then EmptyString else String a (before_comma s')
  end.

(** ["\n\n".join(parts)] *)
Fixpoint join (sep : string) (parts : list string) : string :=
  match parts with
  | [] => ""
  | [p] => p
  | p :: rest => p +:+ sep +:+ join sep rest
  end.

Definition nl : string := String (ascii_of_nat 10) EmptyString.

(** [{k: v for (k, v) in items}]: a later item overrides an earlier one with
    the same key. *)
Definition dict_of `{Countable K} {V} (items : list (K * V)) : gmap K V :=
  foldl (fun m kv => <[kv.1 := kv.2]> m) ∅ items.

(** [v or None] *)
Definition or_none (v : Val) : Val := if truthy v then v else VNone.

Definition of_opt_str (o : option string) : Val :=
  match o with Some s => VStr s | None => VNone end.

Definition of_opt_int (o : option Z) : Val :=
  match o with Some z => VInt z | None => VNone end.

End Py.

(** ** [app/models/email_notification.py] *)

Module EmailNotificationTrigger.

Inductive t : Type :=
| user_created
| user_updated
| user_deleted
| user_limited
| user_expired
| user_enabled
| user_disabled
| data_usage_reset
| data_reset_by_next
| subscription_revoked
| reached_usage_percent
| reached_days_left.

(** The members in declaration order: what [for trigger in
    EmailNotificationTrigger] iterates over. *)
Definition members : list t :=
  [ user_created; user_updated; user_deleted; user_limited; user_expired;
    user_enabled; user_disabled; data_usage_reset; data_reset_by_next;
    subscription_revoked; reached_usage_percent; reached_days_left ].

(** [trigger.value] *)
Definition value (x : t) : string :=
  match x with
  | user_created => "user_created"
  | user_updated => "user_updated"
  | user_deleted => "user_deleted"
  | user_limited => "user_limited"
  | user_expired => "user_expired"
  | user_enabled => "user_enabled"
  | user_disabled => "user_disabled"
  | data_usage_reset => "data_usage_reset"
  | data_reset_by_next => "data_reset_by_next"
  | subscription_revoked => "subscription_revoked"
  | reached_usage_percent => "reached_usage_percent"
  | reached_days_left => "reached_days_left"
  end.

(** [EmailNotificationTrigger(s)] *)
Definition of_value (s : string) : option t :=
  List.find (fun x => String.eqb (value x) s) members.

#[global] Instance t_eq_dec : EqDecision t.
Proof. solve_decision. Defined.

Lemma of_value_value (x : t) : of_value (value x) = Some x.
Proof. destruct x; reflexivity. Qed.

#[global] Instance t_countable : Countable t :=
  inj_countable value of_value of_value_value.

End EmailNotificationTrigger.

Abbreviation Trigger := EmailNotificationTrigger.t.

(** Outcome of a computation that may raise. *)
Inductive Exn : Type :=
| ValueError (msg : string)
| ChannelError (msg : string)
| SMTPException (msg : string)
| UnicodeEncodeError (msg : string).

Inductive Result (A : Type) : Type :=
| Ok (a : A)
| Raise (e : Exn).
Arguments Ok {A} a.
Arguments Raise {A} e.

Definition is_ok {A} (r : Result A) : bool :=
  match r with Ok _ => true | Raise _ => false end.

(** [EmailSMTPSettingsBase.validate_tls_ssl]: the [use_ssl] field validator.
    [data] is [values.data], the fields validated so far; [use_tls] is missing
    from it when its own validation failed, and then reads as [True]. *)
Definition validate_tls_ssl (use_ssl : bool) (data : gmap string Py.Val) : Result bool :=
  let use_tls := default (Py.VBool true) (data !! "use_tls") in
  if use_ssl && Py.truthy use_tls
  then Raise (ValueError "use_ssl and use_tls cannot both be enabled")
  else Ok use_ssl.

(** The request model [EmailSMTPSettingsUpdate] ([EmailSMTPSettingsBase] plus
    the optional [password]). *)
Record EmailSMTPSettingsUpdate : Type := {
  upd_host : string;
  upd_port : Z;
  upd_username : option string;
  upd_use_tls : bool;
  upd_use_ssl : bool;
  upd_from_email : string;
  upd_from_name : option string;
  upd_password : option string;
}.

(** Validation of an already well-typed settings object: the [port] bounds of
    its [Field(ge=1, le=65535)] and, [use_tls] being validated before
    [use_ssl], the field validator above with [use_tls] in [values.data]. *)
Definition validate_smtp_settings (s : EmailSMTPSettingsUpdate) : Result EmailSMTPSettingsUpdate :=
  if negb (Z.leb 1 (upd_port s) && Z.leb (upd_port s) 65535)
  then Raise (ValueError "port")
  else
    match validate_tls_ssl (upd_use_ssl s) {[ "use_tls" := Py.VBool (upd_use_tls s) ]} with
    | Ok _ => Ok s
    | Raise e => Raise e
    end.

(** [EmailNotificationPreferenceModel] *)
Record EmailNotificationPreferenceModel : Type := {
  pref_trigger : Trigger;
  pref_enabled : bool;
}.

(** [EmailNotificationConfigUpdate] *)
Record EmailNotificationConfigUpdate : Type := {
  cfg_smtp : EmailSMTPSettingsUpdate;
  cfg_preferences : list EmailNotificationPreferenceModel;
}.

(** ** Domain objects *)

Module UserStatus.

Inductive t : Type := active | disabled | limited | expired | on_hold.

#[global] Instance t_eq_dec : EqDecision t.
Proof. solve_decision. Defined.

(** [status.value] *)
Definition value (s : t) : string :=
  match s with
  | active => "active"
  | disabled => "disabled"
  | limited => "limited"
  | expired => "expired"
  | on_hold => "on_hold"
  end.

End UserStatus.

(** [app.models.admin.Admin], of which only [username] is read. *)
Record Admin : Type := { admin_username : string }.

(** [app.models.user.UserResponse], restricted to the attributes the
    dispatcher and the router read. *)
Record UserResponse : Type := {
  ur_username : string;
  ur_email : option string;
  ur_status : UserStatus.t;
  ur_data_limit : option Z;
  ur_expire : option Z;
}.

(** A row of [users] as the portal sees it. *)
Record DBUser : Type := {
  dbuser_id : Z;
  dbuser_username : string;
  dbuser_email : option string;
}.

(** A row of [user_login_tokens] (migration [5c0a0e9d8f0f]). *)
Record UserLoginToken : Type := {
  tok_id : Z;
  tok_user_id : Z;
  tok_token_hash : string;
  tok_created_at : Z;
  tok_expires_at : Z;
  tok_used_at : option Z;
  tok_requested_ip : option string;
  tok_requested_user_agent : option string;
  tok_consumed_ip : option string;
  tok_consumed_user_agent : option string;
}.

(** A row of [email_smtp_settings] (migration [c7c9f1f4f1c0]). *)
Record EmailSMTPSettings : Type := {
  row_host : string;
  row_port : Z;
  row_username : option string;
  row_password : option string;
  row_use_tls : bool;
  row_use_ssl : bool;
  row_from_email : string;
  row_from_name : option string;
  row_updated_at : option Z;
}.

(** The persistent store.  [email_notification_preferences] is unique on
    [trigger], hence a finite map from triggers to [enabled]. *)
Record DB : Type := {
  db_users : list DBUser;
  db_tokens : list UserLoginToken;
  db_smtp : option EmailSMTPSettings;
  db_prefs : gmap Trigger bool;
}.

Definition set_tokens (d : DB) (ts : list UserLoginToken) : DB :=
  {| db_users := db_users d; db_tokens := ts; db_smtp := db_smtp d; db_prefs := db_prefs d |}.

Definition set_smtp (d : DB) (s : option EmailSMTPSettings) : DB :=
  {| db_users := db_users d; db_tokens := db_tokens d; db_smtp := s; db_prefs := db_prefs d |}.

Definition set_prefs (d : DB) (p : gmap Trigger bool) : DB :=
  {| db_users := db_users d; db_tokens := db_tokens d; db_smtp := db_smtp d; db_prefs := p |}.

(** ** The cache object of [app/utils/email_notifications.py] *)

(** dataclass [SMTPSettings] *)
Record SMTPSettings : Type := {
  host : string;
  port : Z;
  username : option string;
  password : option string;
  use_tls : bool;
  use_ssl : bool;
  from_email : string;
  from_name : option string;
  updated_at : Z;
}.

(** The attributes of [EmailNotificationManager].  [_preferences] is a dict in
    every state the class can reach ([__init__] and [invalidate] set it to the
    empty dict, [_load_configuration] to a comprehension), never [None]. *)
Record EmailNotificationManager : Type := {
  _settings : option SMTPSettings;
  _preferences : gmap Trigger bool;
  _last_loaded : option Z;
}.

(** [EmailNotificationManager.__init__] *)
Definition Manager_init : EmailNotificationManager :=
  {| _settings := None; _preferences := ∅; _last_loaded := None |}.

(** [email.message.EmailMessage] with the headers the code sets and its
    content; [msg_from] is the string [formataddr] returned. *)
Record EmailMessage : Type := {
  msg_subject : string;
  msg_to : string;
  msg_from : string;
  msg_content : string;
}.

(** ** The outside world *)

(** Calls that leave the process, in the order they are made. *)
Inductive Call : Type :=
| Telegram (fn : string) (kwargs : list (string * Py.Val))
| Discord (fn : string) (kwargs : list (string * Py.Val))
| Notify (action : Trigger) (username : string)
| SMTPConnect (ssl : bool) (host : string) (port : Z)
| SMTPStartTLS
| SMTPLogin (user pass : string)
| SMTPSendMessage (m : EmailMessage)
| SMTPQuit.

(** The state threaded through every operation: the database, the
    process-wide cache, the trace of external calls, the wall clock, the
    source of random tokens, and [outside], which decides for each external
    call, given the calls made before it, whether it raises. *)
Record World : Type := {
  db : DB;
  cache : EmailNotificationManager;
  log : list Call;
  clock : Z;
  rng : nat -> string;
  rng_pos : nat;
  outside : list Call -> Call -> option Exn;
}.

Definition set_db (w : World) (d : DB) : World :=
  {| db := d; cache := cache w; log := log w; clock := clock w;
     rng := rng w; rng_pos := rng_pos w; outside := outside w |}.

Definition set_cache (w : World) (c : EmailNotificationManager) : World :=
  {| db := db w; cache := c; log := log w; clock := clock w;
     rng := rng w; rng_pos := rng_pos w; outside := outside w |}.

Definition set_log (w : World) (l : list Call) : World :=
  {| db := db w; cache := cache w; log := l; clock := clock w;
     rng := rng w; rng_pos := rng_pos w; outside := outside w |}.

Definition set_clock (w : World) (t : Z) : World :=
  {| db := db w; cache := cache w; log := log w; clock := t;
     rng := rng w; rng_pos := rng_pos w; outside := outside w |}.

Definition set_rng_pos (w : World) (n : nat) : World :=
  {| db := db w; cache := cache w; log := log w; clock := clock w;
     rng := rng w; rng_pos := n; outside := outside w |}.

(** ** State-and-exception monad *)

Definition M (A : Type) : Type := World -> Result A * World.

#[global] Instance M_ret : MRet M := fun A a w => (Ok a, w).

#[global] Instance M_bind : MBind M := fun A B f m w =>
  match m w with
  | (Ok a, w') => f a w'
  | (Raise e, w') => (Raise e, w')
  end.

Definition raise {A} (e : Exn) : M A := fun w => (Raise e, w).

(** A computation that touches nothing: it returns or raises at once. *)
Definition lift {A} (r : Result A) : M A := fun w => (r, w).

(** [try: body  except Exception: handler] *)
Definition try_except {A} (body : M A) (handler : Exn -> M A) : M A := fun w =>
  match body w with
  | (Ok a, w') => (Ok a, w')
  | (Raise e, w') => handler e w'
  end.

(** [try: body  except Exception: pass] *)
Definition try_pass (body : M unit) : M unit := try_except body (fun _ => mret tt).

(** A context manager's exit: [fin] runs whether or not [body] raised, and an
    exception of [fin] takes the place of the body's outcome. *)
Definition finally {A} (body : M A) (fin : M unit) : M A := fun w =>
  match body w with
  | (r, w1) =>
      match fin w1 with
      | (Ok _, w2) => (r, w2)
      | (Raise e, w2) => (Raise e, w2)
      end
  end.

Definition get_world : M World := fun w => (Ok w, w).
Definition put_db (d : DB) : M unit := fun w => (Ok tt, set_db w d).
Definition put_cache (c : EmailNotificationManager) : M unit := fun w => (Ok tt, set_cache w c).

(** [datetime.utcnow()] *)
Definition utcnow : M Z := fun w => (Ok (clock w), w).

(** An external call: recorded, then it returns or raises as [outside] says. *)
Definition call (c : Call) : M unit := fun w =>
  let w' := set_log w (log w ++ [c]) in
  match outside w (log w) c with
  | Some e => (Raise e, w')
  | None => (Ok tt, w')
  end.

Definition when (b : bool) (m : M unit) : M unit := if b then m else mret tt.

(** ** The store interface ([app/db/crud.py]) *)

(** Internal outcome codes of token consumption. *)
Inductive TokenError : Type := NotFound | AlreadyUsed | Expired.

#[global] Instance TokenError_eq_dec : EqDecision TokenError.
Proof. solve_decision. Defined.

Definition find_token (h : string) (ts : list UserLoginToken) : option UserLoginToken :=
  List.find (fun t => String.eqb (tok_token_hash t) h) ts.

Definition get_user_by_id (d : DB) (uid : Z) : option DBUser :=
  List.find (fun u => Z.eqb (dbuser_id u) uid) (db_users d).

Definition unconsumed (h : string) (t : UserLoginToken) : bool :=
  String.eqb (tok_token_hash t) h && bool_decide (tok_used_at t = None).

Definition consumed_by (now : Z) (ip ua : option string) (t : UserLoginToken) : UserLoginToken :=
  {| tok_id := tok_id t; tok_user_id := tok_user_id t; tok_token_hash := tok_token_hash t;
     tok_created_at := tok_created_at t; tok_expires_at := tok_expires_at t;
     tok_used_at := Some now;
     tok_requested_ip := tok_requested_ip t;
     tok_requested_user_agent := tok_requested_user_agent t;
     tok_consumed_ip := ip; tok_consumed_user_agent := ua |}.

(** Modelled from the spec: the conditional update behind
    [crud.consume_user_login_token] ([app/db/crud.py] is not part of the
    sources).  One statement, [UPDATE ... SET used_at = now, consumed_ip,
    consumed_user_agent WHERE token_hash = h AND used_at IS NULL]; it returns
    the new table and the number of rows it changed. *)
Definition mark_token_used (h : string) (now : Z) (ip ua : option string)
    (ts : list UserLoginToken) : list UserLoginToken * nat :=
  (List.map (fun t => if unconsumed h t then consumed_by now ip ua t else t) ts,
   length (List.filter (unconsumed h) ts)).

(** Modelled from the spec: [crud.get_email_smtp_settings], the singleton
    settings row or [None]. *)
Definition get_email_smtp_settings (d : DB) : option EmailSMTPSettings := db_smtp d.

(** Modelled from the spec: [crud.get_email_notification_preferences], the
    preference rows, one per stored trigger. *)
Definition get_email_notification_preferences (d : DB) : list (Trigger * bool) :=
  map_to_list (db_prefs d).

(** Modelled from the spec: [crud.update_email_notification_preferences]
    writes one row per entry of the mapping it is given, updating the row of
    a trigger that has one and creating it otherwise, and returns the rows. *)
Definition update_email_notification_preferences (payload : gmap Trigger bool) : M (list (Trigger * bool)) :=
  fun w =>
    let d := set_prefs (db w) (payload ∪ db_prefs (db w)) in
    (Ok (get_email_notification_preferences d), set_db w d).

Definition as_str (v : Py.Val) : string :=
  match v with Py.VStr s => s | _ => "" end.

Definition as_opt_str (v : Py.Val) : option string :=
  match v with Py.VStr s => Some s | _ => None end.

Definition as_int (v : Py.Val) : Z :=
  match v with Py.VInt z => z | _ => 0 end.

Definition as_bool (v : Py.Val) : bool :=
  match v with Py.VBool b => b | _ => false end.

(** A column written from the mapping when its key is there, kept otherwise. *)
Definition column {A} (payload : gmap string Py.Val) (key : string) (conv : Py.Val -> A) (stored : A) : A :=
  match payload !! key with
  | Some v => conv v
  | None => stored
  end.

(** Modelled from the spec: the secret column under
    [crud.upsert_email_smtp_settings].  "A secret value of empty-but-present is
    treated as no change, while an explicitly supplied non-empty secret replaces
    the stored one": the router hands an empty secret over as [None], so a
    [None] (or missing) password leaves the stored secret as it is and a string
    replaces it. *)
Definition secret_column (payload : gmap string Py.Val) (stored : option string) : option string :=
  match payload !! "password" with
  | Some (Py.VStr s) => Some s
  | _ => stored
  end.

(** Modelled from the spec: [crud.upsert_email_smtp_settings] creates the
    singleton row from the mapping when there is none and otherwise updates
    the columns the mapping names, the secret as [secret_column] says. *)
Definition upsert_email_smtp_settings (payload : gmap string Py.Val) : M EmailSMTPSettings :=
  fun w =>
    let row :=
      match db_smtp (db w) with
      | None =>
          {| row_host := as_str (Py.dict_get payload "host");
             row_port := column payload "port" as_int 587;
             row_username := as_opt_str (Py.dict_get payload "username");
             row_password := as_opt_str (Py.dict_get payload "password");
             row_use_tls := column payload "use_tls" as_bool true;
             row_use_ssl := column payload "use_ssl" as_bool false;
             row_from_email := as_str (Py.dict_get payload "from_email");
             row_from_name := as_opt_str (Py.dict_get payload "from_name");
             row_updated_at := Some (clock w) |}
      | Some old =>
          {| row_host := column payload "host" as_str (row_host old);
             row_port := column payload "port" as_int (row_port old);
             row_username := column payload "username" as_opt_str (row_username old);
             row_password := secret_column payload (row_password old);
             row_use_tls := column payload "use_tls" as_bool (row_use_tls old);
             row_use_ssl := column payload "use_ssl" as_bool (row_use_ssl old);
             row_from_email := column payload "from_email" as_str (row_from_email old);
             row_from_name := column payload "from_name" as_opt_str (row_from_name old);
             row_updated_at := Some (clock w) |}
      end in
    (Ok row, set_db w (set_smtp (db w) (Some row))).

(** ** HTTP objects of [app/routers/portal.py] and [app/models/portal.py] *)

(** What the portal reads of a [fastapi.Request].  [req_url_for name token] is
    [None] when [request.url_for] raises. *)
Record Request : Type := {
  req_headers : gmap string string;
  req_client_host : option string;
  req_scheme : string;
  req_base_url : string;
  req_url_for : string -> string -> option string;
}.

(** [MessageResponse] *)
Record MessageResponse : Type := { detail : string }.

(** A JSON response as it leaves the server. *)
Record JSONResponse : Type := {
  json_status_code : Z;
  json_body : MessageResponse;
}.

Record Cookie : Type := {
  cookie_key : string;
  cookie_value : string;
  cookie_max_age : option Z;
  cookie_httponly : bool;
  cookie_secure : bool;
  cookie_samesite : string;
  cookie_path : string;
}.

(** [RedirectResponse] with the cookie set on it, if any. *)
Record RedirectResponse : Type := {
  location : string;
  status_code : Z;
  set_cookie : option Cookie;
}.

(** A task queued on [BackgroundTasks]: [_send_email] with the values it
    closes over. *)
Record SendEmailTask : Type := {
  task_email : string;
  task_username : string;
  task_link : string;
  task_expires_in : Z;
}.

(** [EmailSMTPSettingsResponse] *)
Record EmailSMTPSettingsResponse : Type := {
  resp_host : string;
  resp_port : Z;
  resp_username : option string;
  resp_use_tls : bool;
  resp_use_ssl : bool;
  resp_from_email : string;
  resp_from_name : option string;
  resp_has_password : bool;
}.

(** [EmailNotificationConfigResponse] *)
Record EmailNotificationConfigResponse : Type := {
  resp_smtp : option EmailSMTPSettingsResponse;
  resp_preferences : list EmailNotificationPreferenceModel;
}.

Definition HTTP_202_ACCEPTED : Z := 202.
Definition HTTP_303_SEE_OTHER : Z := 303.

Definition GENERIC_MESSAGE : string :=
  "If the email is registered, a sign-in link has been sent.".

(** ** Sample data *)

Module Sample.

Definition hash (s : string) : string := "h(" +:+ s +:+ ")".

(** A registry that finds users by their exact user name. *)
Definition get_user_by_username (d : DB) (name : string) : option DBUser :=
  List.find (fun u => String.eqb (dbuser_username u) name) (db_users d).

Definition alice : DBUser :=
  {| dbuser_id := 1; dbuser_username := "alice@example.org";
     dbuser_email := Some "alice@example.org" |}.

Definition token_row : UserLoginToken :=
  {| tok_id := 1; tok_user_id := 1; tok_token_hash := hash "s3cr3t";
     tok_created_at := 1000; tok_expires_at := 1900; tok_used_at := None;
     tok_requested_ip := Some "10.0.0.1"; tok_requested_user_agent := None;
     tok_consumed_ip := None; tok_consumed_user_agent := None |}.

Definition store : DB :=
  {| db_users := [alice]; db_tokens := [token_row]; db_smtp := None; db_prefs := ∅ |}.

Definition smtp : SMTPSettings :=
  {| host := "mail.example.org"; port := 587; username := Some "mailer";
     password := Some "hunter2"; use_tls := true; use_ssl := false;
     from_email := "vpn@example.org"; from_name := None; updated_at := 0 |}.

(** A world at time 1200 whose cache is loaded, with the usage alert enabled
    and an outside that never fails. *)
Definition world : World :=
  {| db := store;
     cache := {| _settings := Some smtp;
                 _preferences := {[ EmailNotificationTrigger.reached_usage_percent := true ]};
                 _last_loaded := Some 0 |};
     log := [];
     clock := 1200;
     rng := fun _ => "t0k3n";
     rng_pos := 0;
     outside := fun _ _ => None |}.

Definition bob : UserResponse :=
  {| ur_username := "bob"; ur_email := Some "bob@example.org";
     ur_status := UserStatus.active; ur_data_limit := None; ur_expire := None |}.

Definition format_bytes (n : Z) : string := Py.str_int n +:+ " B".

Definition strftime (t : Z) : option string := Some ("@" +:+ Py.str_int t).

(** Stand-ins for the string methods and the mail library, used on ASCII
    sample data only, where they give what Python gives. *)

(** ASCII white space: TAB, LF, VT, FF, CR, FS, GS, RS, US and SPACE. *)
Definition is_space (a : ascii) : bool :=
  let n := nat_of_ascii a in
  ((9 <=? n) && (n <=? 13) || (28 <=? n) && (n <=? 32))%nat.

Fixpoint lstrip_by (p : ascii -> bool) (s : string) : string :=
  match s with
  | EmptyString => EmptyString
  | String a s' => if p a then lstrip_by p s' else s
  end.

(** [s.strip()] for ASCII [s]. *)
Definition strip (s : string) : string :=
  lstrip_by is_space (Py.rstrip_by is_space s).

Definition lower_ascii (a : ascii) : ascii :=
  let n := nat_of_ascii a in
  if ((65 <=? n) && (n <=? 90))%nat then ascii_of_nat (n + 32) else a.

(** [s.lower()] for ASCII [s]. *)
Fixpoint lower (s : string) : string :=
  match s with
  | EmptyString => EmptyString
  | String a s' => String (lower_ascii a) (lower s')
  end.

(** The characters [str.splitlines] breaks an ASCII string at: LF, VT, FF,
    CR, FS, GS and RS. *)
Definition is_line_break (a : ascii) : bool :=
  let n := nat_of_ascii a in
  ((10 <=? n) && (n <=? 13) || (28 <=? n) && (n <=? 30))%nat.

(** [len(s.splitlines()) > 1] for ASCII [s]: there is a line break, CR LF
    counting as one, with something after it. *)
Fixpoint more_than_one_line (s : string) : bool :=
  match s with
  | EmptyString => false
  | String a s' =>
      if is_line_break a
      then
        match s' with
        | EmptyString => false
        | String b s'' =>
            if ((nat_of_ascii a =? 13) && (nat_of_ascii b =? 10))%nat
            then Py.str_truthy s''
            else true
        end
      else more_than_one_line s'
  end.

(** [message[name] = value]: the default policy raises [ValueError] for a
    value of more than one line. *)
Definition set_header (name value : string) : option Exn :=
  if more_than_one_line value
  then Some (ValueError "Header values may not contain linefeed or carriage return characters")
  else None.

Definition quote_char : ascii := ascii_of_nat 34.

Definition is_special (a : ascii) : bool :=
  Ascii.eqb a quote_char
  || existsb (Ascii.eqb a) (list_ascii_of_string "[]\()<>@,:;.").

Fixpoint escape (s : string) : string :=
  match s with
  | EmptyString => EmptyString
  | String a s' =>
      if Ascii.eqb a "\"%char || Ascii.eqb a quote_char
      then String "\"%char (String a (escape s'))
      else String a (escape s')
  end.

(** [formataddr((name, address))] for an ASCII name and address: the name is
    quoted when it holds a special character, and backslashes and quotes in
    it are escaped. *)
Definition formataddr (name address : string) : Result string :=
  if Py.str_truthy name
  then
    let quotes :=
      if existsb is_special (list_ascii_of_string name)
      then String quote_char EmptyString else EmptyString in
    Ok (quotes +:+ escape name +:+ quotes +:+ " <" +:+ address +:+ ">")
  else Ok address.

(** [message.set_content(body)] for ASCII text. *)
Definition set_content (body : string) : option Exn := None.

(** A registry entry whose name has upper-case letters. *)
Definition Alice : DBUser :=
  {| dbuser_id := 2; dbuser_username := "Alice@Example.org";
     dbuser_email := Some "Alice@Example.org" |}.

Definition mixed_case_store : DB :=
  {| db_users := [Alice]; db_tokens := []; db_smtp := None; db_prefs := ∅ |}.

(** SMTP settings whose sender name holds a line feed. *)
Definition two_line_sender : SMTPSettings :=
  {| host := "mail.example.org"; port := 587; username := Some "mailer";
     password := Some "hunter2"; use_tls := true; use_ssl := false;
     from_email := "vpn@example.org"; from_name := Some ("VPN" +:+ Py.nl +:+ "Admin");
     updated_at := 0 |}.

(** A loaded cache with these settings, the creation notice and the usage
    alert enabled, and an outside that never fails. *)
Definition two_line_world : World :=
  {| db := store;
     cache := {| _settings := Some two_line_sender;
                 _preferences :=
                   {[ EmailNotificationTrigger.user_created := true;
                      EmailNotificationTrigger.reached_usage_percent := true ]};
                 _last_loaded := Some 0 |};
     log := [];
     clock := 1200;
     rng := fun _ => "t0k3n";
     rng_pos := 0;
     outside := fun _ _ => None |}.

Definition root : Admin := {| admin_username := "root" |}.

Definition mixed_case_world : World :=
  {| db := mixed_case_store; cache := Manager_init; log := []; clock := 1200;
     rng := fun _ => "t0k3n"; rng_pos := 0; outside := fun _ _ => None |}.

(** A request that came through a proxy, for a server that cannot build the
    route's URL. *)
Definition request : Request :=
  {| req_headers := {[ "X-Forwarded-For" := "203.0.113.7, 10.0.0.2" ]};
     req_client_host := Some "10.0.0.2";
     req_scheme := "https";
     req_base_url := "https://vpn.example.org/";
     req_url_for := fun _ _ => None |}.

Definition message : EmailMessage :=
  {| msg_subject := "Your VPN access is ready"; msg_to := "bob@example.org";
     msg_from := "VPN <vpn@example.org>"; msg_content := "Hello bob@example.org," |}.


(** Plain SMTP: neither STARTTLS nor implicit SSL. *)
Definition plain_smtp : EmailSMTPSettingsUpdate :=
  {| upd_host := "mail.example.org"; upd_port := 25; upd_username := None;
     upd_use_tls := false; upd_use_ssl := false;
     upd_from_email := "vpn@example.org"; upd_from_name := None;
     upd_password := None |}.



End Sample.

Section App.

Set Default Proof Using "Type".
Set Proof Using Clear Unused.

(** *** What the sources leave open *)

(** The one-way hash applied to a login token before it is stored. *)
Variable hash_token : string -> string.

(** [crud.get_user]: the user registered under an identifier, if any. *)
Variable get_user : DB -> string -> option DBUser.

(** [app.utils.jwt.create_user_session_token] *)
Variable create_user_session_token : Z -> string.

(** [EmailNotificationManager._format_bytes]: its result goes through float
    division and [:.2f] formatting and is taken as given. *)
Variable _format_bytes : Z -> string.

(** [datetime.utcfromtimestamp(expire).strftime("%Y-%m-%d %H:%M UTC")], or
    [None] when it raises. *)
Variable strftime_utc : Z -> option string.

(** [str.strip()] and [str.lower()], which follow the Unicode tables. *)
Variable str_strip : string -> string.
Variable str_lower : string -> string.

(** [message[name] = value] on an [EmailMessage]: [None] when the header is
    set, the exception when the policy refuses the value (a [ValueError] for
    a value with a line break in it). *)
Variable set_header : string -> string -> option Exn.

(** [email.utils.formataddr((name, address))]; it raises
    [UnicodeEncodeError] for an address that is not ASCII. *)
Variable formataddr : string -> string -> Result string.

(** [message.set_content(body)]: [None] when the body is set, the exception
    when the text cannot be encoded. *)
Variable set_content : string -> option Exn.

(** Constants of [config]. *)
Variable NOTIFY_STATUS_CHANGE : bool.
Variable NOTIFY_USER_CREATED : bool.
Variable NOTIFY_USER_UPDATED : bool.
Variable NOTIFY_USER_DELETED : bool.
Variable NOTIFY_USER_DATA_USED_RESET : bool.
Variable NOTIFY_USER_SUB_REVOKED : bool.
Variable USER_LOGIN_TOKEN_EXPIRE_MINUTES : Z.
Variable USER_SESSION_EXPIRE_MINUTES : Z.
Variable USER_SESSION_COOKIE_NAME : string.

(** *** Login tokens *)

(** Modelled from the spec: [crud.create_user_login_token] (issue, §4.1).
    A random token is drawn, only its hash is stored with the request's
    metadata, [expires_at = now + ttl_minutes] (the clock counts seconds), and
    the plaintext is returned.  Distinct issuances are taken not to collide
    in hash, so the unique index never rejects the insert. *)
Definition create_user_login_token (dbuser : DBUser) (expires_in : Z)
    (requested_ip requested_user_agent : option string) : M string :=
  fun w =>
    let token := rng w (rng_pos w) in
    let row :=
      {| tok_id := Z.of_nat (length (db_tokens (db w))) + 1;
         tok_user_id := dbuser_id dbuser;
         tok_token_hash := hash_token token;
         tok_created_at := clock w;
         tok_expires_at := clock w + 60 * expires_in;
         tok_used_at := None;
         tok_requested_ip := requested_ip;
         tok_requested_user_agent := requested_user_agent;
         tok_consumed_ip := None;
         tok_consumed_user_agent := None |} in
    (Ok token,
     set_rng_pos (set_db w (set_tokens (db w) (db_tokens (db w) ++ [row]))) (S (rng_pos w))).

(** Modelled from the spec: [crud.consume_user_login_token] (consume, §4.1).
    The presented token is hashed and looked up; it fails with [NotFound]
    when no row matches, with [AlreadyUsed] when [used_at] is set, with
    [Expired] when [now > expires_at]; otherwise the conditional update is
    made, and the attempt wins only if that update changed a row. *)
Definition consume_user_login_token (token : string)
    (consumed_ip consumed_user_agent : option string)
    : M (option DBUser * option TokenError) :=
  fun w =>
    let h := hash_token token in
    match find_token h (db_tokens (db w)) with
    | None => (Ok (None, Some NotFound), w)
    | Some row =>
        if bool_decide (tok_used_at row <> None) then (Ok (None, Some AlreadyUsed), w)
        else if Z.ltb (tok_expires_at row) (clock w) then (Ok (None, Some Expired), w)
        else
          let '(ts, changed) :=
            mark_token_used h (clock w) consumed_ip consumed_user_agent (db_tokens (db w)) in
          if Nat.eqb changed 0 then (Ok (None, Some AlreadyUsed), w)
          else (Ok (get_user_by_id (db w) (tok_user_id row), None),
                set_db w (set_tokens (db w) ts))
    end.

(** *** [EmailNotificationManager] *)

(** [invalidate] *)
Definition invalidate : M unit :=
  put_cache {| _settings := None; _preferences := ∅; _last_loaded := None |}.

(** [_load_configuration] *)
Definition _load_configuration : M unit :=
  w ← get_world;
  let settings := get_email_smtp_settings (db w) in
  let preferences := get_email_notification_preferences (db w) in
  now ← utcnow;
  put_cache
    {| _settings :=
         match settings with
         | Some s =>
             Some {| host := row_host s; port := row_port s;
                     username := row_username s; password := row_password s;
                     use_tls := row_use_tls s; use_ssl := row_use_ssl s;
                     from_email := row_from_email s; from_name := row_from_name s;
                     updated_at := default now (row_updated_at s) |}
         | None => None
         end;
       _preferences := Py.dict_of preferences;
       _last_loaded := Some now |}.

(** [_ensure_configuration]: [self._preferences is None] never holds. *)
Definition _ensure_configuration : M unit :=
  w ← get_world;
  if bool_decide (_settings (cache w) = None) || false
  then _load_configuration
  else mret tt.

(** [is_enabled] *)
Definition is_enabled (trigger : Trigger) : M bool :=
  _ensure_configuration;;
  w ← get_world;
  mret (default false (_preferences (cache w) !! trigger)).

(** [_format_expire] *)
Definition _format_expire (expire : option Z) : string :=
  match expire with
  | None => "No expiration"
  | Some e =>
      if Z.eqb e 0 then "No expiration"
      else default "Unknown" (strftime_utc e)
  end.

(** [_format_user_details] *)
Definition _format_user_details (user : UserResponse) : string :=
  let data_limit :=
    match ur_data_limit user with
    | None => "Unlimited"
    | Some l => if Z.eqb l 0 then "Unlimited" else _format_bytes l
    end in
  let expire := _format_expire (ur_expire user) in
  "Status: " +:+ UserStatus.value (ur_status user) +:+ Py.nl +:+
  "Data limit: " +:+ data_limit +:+ Py.nl +:+
  "Expires: " +:+ expire.

(** [_format_actor] *)
Definition _format_actor (actor : Py.Val) : option string :=
  if negb (Py.truthy actor) then None
  else
    match actor with
    | Py.VStr s => Some ("Changed by: " +:+ s)
    | Py.VObj (Some u) => Some ("Changed by: " +:+ u)
    | _ => None
    end.

(** [_wrap_message] *)
Definition _wrap_message (identifier : string) (lines : list (option string)) : string :=
  let filtered_lines :=
    omap (fun line => if Py.opt_truthy line then line else None) lines in
  Py.join (Py.nl +:+ Py.nl)
    (["Hello " +:+ identifier +:+ ","] ++ filtered_lines ++
     [Py.nl +:+ "Regards,"; "Your VPN Administrator"]).

(** [user.email or user.username] *)
Definition email_or_username (user : UserResponse) : string :=
  match ur_email user with
  | Some e => if Py.str_truthy e then e else ur_username user
  | None => ur_username user
  end.

(** [_render].  The enum is closed, so the final [else] of the source (empty
    subject and body) has no trigger left to reach it. *)
Definition _render (trigger : Trigger) (user : UserResponse)
    (context : gmap string Py.Val) : string * string :=
  let identifier := email_or_username user in
  let base_details := _format_user_details user in
  match trigger with
  | EmailNotificationTrigger.user_created =>
      let by_ := Py.dict_get context "by" in
      ("Your VPN access is ready",
       _wrap_message identifier
         [Some "Your account has been created successfully.";
          Some base_details; _format_actor by_])
  | EmailNotificationTrigger.user_updated =>
      let by_ := Py.dict_get context "by" in
      ("Your VPN account was updated",
       _wrap_message identifier
         [Some "Your account settings were updated.";
          Some base_details; _format_actor by_])
  | EmailNotificationTrigger.user_deleted =>
      let by_ := Py.dict_get context "by" in
      ("Your VPN account was removed",
       _wrap_message identifier
         [Some "Your access has been revoked and the account was removed from the system.";
          _format_actor by_])
  | EmailNotificationTrigger.user_limited =>
      ("Your VPN account reached its limit",
       _wrap_message identifier
         [Some "Your account is limited because the allocated data has been used.";
          Some base_details])
  | EmailNotificationTrigger.user_expired =>
      ("Your VPN account expired",
       _wrap_message identifier
         [Some "Your subscription has expired."; Some base_details])
  | EmailNotificationTrigger.user_enabled =>
      let by_ := Py.dict_get context "by" in
      ("Your VPN access is active again",
       _wrap_message identifier
         [Some "Your account has been enabled."; Some base_details; _format_actor by_])
  | EmailNotificationTrigger.user_disabled =>
      let by_ := Py.dict_get context "by" in
      let reason := Py.dict_get context "reason" in
      let reason_text :=
        if Py.truthy reason then Some ("Reason: " +:+ Py.str reason) else None in
      ("Your VPN access was disabled",
       _wrap_message identifier
         [Some "Your account has been disabled."; reason_text; _format_actor by_])
  | EmailNotificationTrigger.data_usage_reset =>
      let by_ := Py.dict_get context "by" in
      ("Your VPN data usage was reset",
       _wrap_message identifier
         [Some "Your data usage has been reset."; Some base_details; _format_actor by_])
  | EmailNotificationTrigger.data_reset_by_next =>
      ("Your VPN plan switched to the next cycle",
       _wrap_message identifier
         [Some "Your account has been refreshed according to the next plan schedule.";
          Some base_details])
  | EmailNotificationTrigger.subscription_revoked =>
      let by_ := Py.dict_get context "by" in
      ("Your subscription links were revoked",
       _wrap_message identifier
         [Some "Subscription links were revoked. You will need to request new ones.";
          _format_actor by_])
  | EmailNotificationTrigger.reached_usage_percent =>
      let percent := Py.dict_get context "percent" in
      ("Your VPN usage alert",
       _wrap_message identifier
         [(if bool_decide (percent <> Py.VNone)
           then Some ("You have used " +:+ Py.str percent +:+ "% of your available data.")
           else None);
          Some base_details])
  | EmailNotificationTrigger.reached_days_left =>
      let days_left := Py.dict_get context "days" in
      ("Your VPN subscription is ending soon",
       _wrap_message identifier
         [(if bool_decide (days_left <> Py.VNone)
           then Some ("You have " +:+ Py.str days_left +:+ " day(s) remaining on your subscription.")
           else None);
          Some base_details])
  end.

(** [_login_if_required] *)
Definition _login_if_required : M unit :=
  w ← get_world;
  match _settings (cache w) with
  | Some s =>
      match username s, password s with
      | Some u, Some p =>
          if Py.str_truthy u && Py.str_truthy p then call (SMTPLogin u p) else mret tt
      | _, _ => mret tt
      end
  | None => mret tt
  end.

(** [with smtplib.SMTP(host, port) as smtp: body] (or [SMTP_SSL]): the
    connection is made, and once made it is quit on the way out whether or
    not the body raised. *)
Definition with_smtp (ssl : bool) (h : string) (p : Z) (body : M unit) : M unit :=
  call (SMTPConnect ssl h p);;
  finally body (call SMTPQuit).

(** [_deliver_email]; logging is not modelled. *)
Definition _deliver_email (message : EmailMessage) : M bool :=
  w ← get_world;
  match _settings (cache w) with
  | None => mret false
  | Some s =>
      try_except
        ((if use_ssl s
          then
            with_smtp true (host s) (port s)
              (_login_if_required;;
               call (SMTPSendMessage message))
          else
            with_smtp false (host s) (port s)
              (when (use_tls s) (call SMTPStartTLS);;
               _login_if_required;;
               call (SMTPSendMessage message)));;
         mret true)
        (fun _ => mret false)
  end.

(** [from_name = self._settings.from_name or self._settings.from_email] *)
Definition sender_name (s : SMTPSettings) : string :=
  default (from_email s) (Py.opt_or (from_name s) (Some (from_email s))).

(** The statements of [send] (lines 91-96) and [send_magic_link] (lines
    117-132) that fill in the message: the three headers in the order
    Subject, To, From, then the content.  Each may raise, and none is inside
    a [try]. *)
Definition build_message (subject to_ : string) (s : SMTPSettings) (body : string)
    : Result EmailMessage :=
  match set_header "Subject" subject with
  | Some e => Raise e
  | None =>
      match set_header "To" to_ with
      | Some e => Raise e
      | None =>
          match formataddr (sender_name s) (from_email s) with
          | Raise e => Raise e
          | Ok from_ =>
              match set_header "From" from_ with
              | Some e => Raise e
              | None =>
                  match set_content body with
                  | Some e => Raise e
                  | None =>
                      Ok {| msg_subject := subject; msg_to := to_;
                            msg_from := from_; msg_content := body |}
                  end
              end
          end
      end
  end.

(** [send] *)
Definition send (trigger : Trigger) (user : UserResponse)
    (context : gmap string Py.Val) : M unit :=
  if negb (Py.opt_truthy (ur_email user)) then mret tt
  else
    _ensure_configuration;;
    w ← get_world;
    match _settings (cache w) with
    | None => mret tt
    | Some s =>
        if negb (default false (_preferences (cache w) !! trigger)) then mret tt
        else
          let '(subject, body) := _render trigger user context in
          if negb (Py.str_truthy subject) || negb (Py.str_truthy body) then mret tt
          else
            message ← lift (build_message subject (default "" (ur_email user)) s body);
            _deliver_email message;;
            mret tt
    end.



(** [invalidate_email_notifications_cache] *)
Definition invalidate_email_notifications_cache : M unit := invalidate.

(** *** [app/utils/report.py] *)

(** [getattr(by, "username", by)] *)
Definition by_username (by_ : option Admin) : Py.Val :=
  match by_ with
  | Some a => Py.VStr (admin_username a)
  | None => Py.VNone
  end.

(** [user_email or username] *)
Definition identifier_of (user_email : option string) (username_ : string) : string :=
  default username_ (Py.opt_or user_email (Some username_)).

(** Modelled from the spec: [notify(...)] ([app/utils/notification.py] is not
    part of the sources) hands the record to the in-process notification sink,
    "a simple append/consume interface": the record is appended and nothing is
    raised. *)
Definition notify (action : Trigger) (username_ : string) : M unit := fun w =>
  (Ok tt, set_log w (log w ++ [Notify action username_])).


(** [user_created] *)
Definition user_created (user : UserResponse) (user_id : Z) (by_ : Admin) : M unit :=
  if NOTIFY_USER_CREATED then
    let identifier := email_or_username user in
    let kwargs := [("username", Py.VStr identifier);
                   ("by", Py.VStr (admin_username by_));
                   ("expire_date", Py.of_opt_int (ur_expire user));
                   ("data_limit", Py.of_opt_int (ur_data_limit user))] in
    try_pass (call (Telegram "report_new_user" (("user_id", Py.VInt user_id) :: kwargs)));;
    notify EmailNotificationTrigger.user_created (ur_username user);;
    send EmailNotificationTrigger.user_created user (<["by" := by_username (Some by_)]> ∅);;
    try_pass (call (Discord "report_new_user" kwargs))
  else mret tt.

(** [user_updated] *)
Definition user_updated (user : UserResponse) (by_ : Admin) : M unit :=
  if NOTIFY_USER_UPDATED then
    let identifier := email_or_username user in
    let kwargs := [("username", Py.VStr identifier);
                   ("expire_date", Py.of_opt_int (ur_expire user));
                   ("data_limit", Py.of_opt_int (ur_data_limit user));
                   ("by", Py.VStr (admin_username by_))] in
    try_pass (call (Telegram "report_user_modification" kwargs));;
    notify EmailNotificationTrigger.user_updated (ur_username user);;
    send EmailNotificationTrigger.user_updated user (<["by" := by_username (Some by_)]> ∅);;
    try_pass (call (Discord "report_user_modification" kwargs))
  else mret tt.

(** [user_deleted] *)
Definition user_deleted (username_ : string) (by_ : Admin) (user_email : option string)
    (user : option UserResponse) : M unit :=
  if NOTIFY_USER_DELETED then
    let identifier := identifier_of user_email username_ in
    let kwargs := [("username", Py.VStr identifier);
                   ("by", Py.VStr (admin_username by_))] in
    try_pass (call (Telegram "report_user_deletion" kwargs));;
    notify EmailNotificationTrigger.user_deleted username_;;
    match user with
    | Some u =>
        send EmailNotificationTrigger.user_deleted u (<["by" := by_username (Some by_)]> ∅)
    | None => mret tt
    end;;
    try_pass (call (Discord "report_user_deletion" kwargs))
  else mret tt.



(** *** [app/routers/email_notifications.py] *)

Definition insert_if_some (key : string) (o : option Py.Val) (d : gmap string Py.Val)
    : gmap string Py.Val :=
  match o with
  | Some v => <[key := v]> d
  | None => d
  end.

(** [payload.smtp.model_dump(exclude_none=True)] *)
Definition model_dump_exclude_none (s : EmailSMTPSettingsUpdate) : gmap string Py.Val :=
  insert_if_some "username" (Py.VStr <$> upd_username s)
    (insert_if_some "from_name" (Py.VStr <$> upd_from_name s)
       (insert_if_some "password" (Py.VStr <$> upd_password s)
          (<["host" := Py.VStr (upd_host s)]>
             (<["port" := Py.VInt (upd_port s)]>
                (<["use_tls" := Py.VBool (upd_use_tls s)]>
                   (<["use_ssl" := Py.VBool (upd_use_ssl s)]>
                      (<["from_email" := Py.VStr (upd_from_email s)]> ∅))))))).

(** [if smtp_payload.get(key) == "": smtp_payload[key] = None] *)
Definition blank_to_none (key : string) (d : gmap string Py.Val) : gmap string Py.Val :=
  if bool_decide (Py.dict_get d key = Py.VStr "") then <[key := Py.VNone]> d else d.

(** Lines 69-80 of the router: the mapping handed to
    [crud.upsert_email_smtp_settings]. *)
Definition smtp_payload_of (existing_settings : option EmailSMTPSettings)
    (smtp : EmailSMTPSettingsUpdate) : gmap string Py.Val :=
  let smtp_payload := model_dump_exclude_none smtp in
  let smtp_payload := blank_to_none "username" smtp_payload in
  let smtp_payload := blank_to_none "from_name" smtp_payload in
  let password_ := Py.dict_get smtp_payload "password" in
  if bool_decide (password_ <> Py.VNone)
  then <["password" := Py.or_none password_]> smtp_payload
  else if bool_decide (existing_settings = None)
  then <["password" := Py.VNone]> smtp_payload
  else smtp_payload.

(** Lines 84-87 of the router: every member of the enum mapped to [False],
    updated with the comprehension over the request's preferences. *)
Definition preference_payload_of (preferences : list EmailNotificationPreferenceModel)
    : gmap Trigger bool :=
  Py.dict_of ((fun pref => (pref_trigger pref, pref_enabled pref)) <$> preferences)
  ∪ Py.dict_of ((fun trigger => (trigger, false)) <$> EmailNotificationTrigger.members).

(** [_serialize_smtp] *)
Definition _serialize_smtp (settings : option EmailSMTPSettings)
    : option EmailSMTPSettingsResponse :=
  match settings with
  | None => None
  | Some s =>
      Some {| resp_host := row_host s; resp_port := row_port s;
              resp_username := row_username s;
              resp_use_tls := row_use_tls s; resp_use_ssl := row_use_ssl s;
              resp_from_email := row_from_email s; resp_from_name := row_from_name s;
              resp_has_password := Py.opt_truthy (row_password s) |}
  end.

(** [_serialize_preferences], up to the order of the list (the source sorts
    it by trigger value). *)
Definition _serialize_preferences (preferences : list (Trigger * bool))
    : list EmailNotificationPreferenceModel :=
  (fun row => {| pref_trigger := row.1; pref_enabled := row.2 |}) <$> preferences.

(** [update_email_notification_config] *)
Definition update_email_notification_config (payload : EmailNotificationConfigUpdate)
    : M EmailNotificationConfigResponse :=
  w ← get_world;
  let existing_settings := get_email_smtp_settings (db w) in
  let smtp_payload := smtp_payload_of existing_settings (cfg_smtp payload) in
  settings ← upsert_email_smtp_settings smtp_payload;
  let preference_payload := preference_payload_of (cfg_preferences payload) in
  preferences ← update_email_notification_preferences preference_payload;
  invalidate_email_notifications_cache;;
  mret {| resp_smtp := _serialize_smtp (Some settings);
          resp_preferences := _serialize_preferences preferences |}.

(** *** [app/routers/portal.py] *)

(** [_get_client_ip] *)
Definition _get_client_ip (request : Request) : option string :=
  match req_headers request !! "X-Forwarded-For" with
  | Some forwarded_for =>
      if Py.str_truthy forwarded_for
      then Some (str_strip (Py.before_comma forwarded_for))
      else req_client_host request
  | None => req_client_host request
  end.

(** Lines 53-58 of [request_magic_link]: the exact identifier is looked up,
    and when that finds nobody and lowering changes the identifier, the
    lowered one is. *)
Definition lookup_dbuser (d : DB) (email : string) : option DBUser :=
  let identifier := str_strip email in
  match get_user d identifier with
  | Some dbuser => Some dbuser
  | None =>
      let lowered := str_lower identifier in
      if bool_decide (lowered <> identifier) then get_user d lowered else None
  end.

(** [request_magic_link]; the tasks it adds to [bg] are returned with the
    response. *)
Definition request_magic_link (email : string) (request : Request)
    : M (MessageResponse * list SendEmailTask) :=
  w ← get_world;
  match lookup_dbuser (db w) email with
  | None => mret ({| detail := GENERIC_MESSAGE |}, [])
  | Some dbuser =>
      if negb (Py.opt_truthy (dbuser_email dbuser))
      then mret ({| detail := GENERIC_MESSAGE |}, [])
      else
        let expires_in :=
          if Z.ltb 0 USER_LOGIN_TOKEN_EXPIRE_MINUTES
          then USER_LOGIN_TOKEN_EXPIRE_MINUTES else 15 in
        token ← create_user_login_token dbuser expires_in
                  (_get_client_ip request) (req_headers request !! "User-Agent");
        let login_url :=
          match req_url_for request "portal_magic_link" token with
          | Some url => url
          | None =>
              let base := Py.rstrip_slash (req_base_url request) in
              base +:+ "/auth/magic?token=" +:+ token
          end in
        let task :=
          {| task_email := default "" (dbuser_email dbuser);
             task_username := dbuser_username dbuser;
             task_link := login_url;
             task_expires_in := expires_in |} in
        mret ({| detail := GENERIC_MESSAGE |}, [task])
  end.

(** The route [POST /api/auth/magic-link]: the handler's result under the
    decorator's [status_code=status.HTTP_202_ACCEPTED]. *)
Definition post_auth_magic_link (email : string) (request : Request)
    : M (JSONResponse * list SendEmailTask) :=
  r ← request_magic_link email request;
  mret ({| json_status_code := HTTP_202_ACCEPTED; json_body := r.1 |}, r.2).


(** [verify_magic_link] from the pair [(user, error)] that
    [crud.consume_user_login_token] returned to it. *)
Definition verify_magic_link (consumed : option DBUser * option string) (request : Request)
    : RedirectResponse :=
  let '(user, error) := consumed in
  match user with
  | None =>
      let target :=
        if bool_decide (error <> Some "expired") then "/?login=invalid" else "/?login=expired" in
      {| location := target; status_code := HTTP_303_SEE_OTHER; set_cookie := None |}
  | Some u =>
      let session_token := create_user_session_token (dbuser_id u) in
      let max_age :=
        if Z.ltb 0 USER_SESSION_EXPIRE_MINUTES
        then Some (60 * USER_SESSION_EXPIRE_MINUTES) else None in
      let secure_cookie := String.eqb (req_scheme request) "https" in
      {| location := "/?login=success"; status_code := HTTP_303_SEE_OTHER;
         set_cookie :=
           Some {| cookie_key := USER_SESSION_COOKIE_NAME;
                   cookie_value := session_token;
                   cookie_max_age := max_age;
                   cookie_httponly := true;
                   cookie_secure := secure_cookie;
                   cookie_samesite := "lax";
                   cookie_path := "/" |} |}
  end.

(** *** Observations used to state the properties *)

(** What the client receives from a run of an endpoint. *)
Definition response_of {A B} (r : Result (A * B) * World) : Result A :=
  match r.1 with
  | Ok (a, _) => Ok a
  | Raise e => Raise e
  end.

Definition accepted : JSONResponse :=
  {| json_status_code := HTTP_202_ACCEPTED; json_body := {| detail := GENERIC_MESSAGE |} |}.

(** The operations that touch the token table, and the passing of time. *)
Inductive TokenOp : Type :=
| OpIssue (dbuser : DBUser) (expires_in : Z) (ip ua : option string)
| OpConsume (token : string) (ip ua : option string)
| OpClock (t : Z).

Definition run_op (op : TokenOp) (w : World) : World :=
  match op with
  | OpIssue dbuser expires_in ip ua => (create_user_login_token dbuser expires_in ip ua w).2
  | OpConsume token ip ua => (consume_user_login_token token ip ua w).2
  | OpClock t => set_clock w t
  end.

Definition run_ops (ops : list TokenOp) (w : World) : World :=
  foldl (fun w op => run_op op w) w ops.

(** The value a list of items gives to a key: that of the last item with it. *)
Fixpoint assoc_last `{EqDecision K} {V} (k : K) (items : list (K * V)) : option V :=
  match items with
  | [] => None
  | (k', v) :: rest =>
      match assoc_last k rest with
      | Some v' => Some v'
      | None => if decide (k = k') then Some v else None
      end
  end.

(** What a configuration request asks for a trigger, if it lists it. *)
Definition requested (preferences : list EmailNotificationPreferenceModel) (trigger : Trigger)
    : option bool :=
  assoc_last trigger ((fun pref => (pref_trigger pref, pref_enabled pref)) <$> preferences).

(** The stored secret, if there is a settings row with one. *)
Definition stored_secret (d : DB) : option string := db_smtp d ≫= row_password.





(** The dispatcher is ready to mail [user] on [trigger] through [s]: the user
    has an address and, once the configuration is ensured, [s] is the cached
    SMTP configuration and the trigger is enabled. *)
Definition ready (w : World) (trigger : Trigger) (user : UserResponse) (s : SMTPSettings) : Prop :=
  Py.opt_truthy (ur_email user) = true
  /\ _settings (cache (_ensure_configuration w).2) = Some s
  /\ _preferences (cache (_ensure_configuration w).2) !! trigger = Some true.

(** No call to the outside raises. *)
Definition quiet (w : World) : Prop := forall l c, outside w l c = None.

(** The message [send] builds for a trigger, or the exception building it
    raises. *)
Definition message_for (trigger : Trigger) (user : UserResponse) (context : gmap string Py.Val)
    (s : SMTPSettings) : Result EmailMessage :=
  build_message (_render trigger user context).1 (default "" (ur_email user)) s
    (_render trigger user context).2.

(** The exception that stops [send] once its guards are passed: the one
    raised while the message is filled in, when the dispatcher is ready for
    the trigger and there is one. *)
Definition build_error (w : World) (trigger : Trigger) (user : UserResponse)
    (context : gmap string Py.Val) : option Exn :=
  if Py.opt_truthy (ur_email user)
  then
    let w0 := (_ensure_configuration w).2 in
    match _settings (cache w0), _preferences (cache w0) !! trigger with
    | Some s, Some true =>
        match message_for trigger user context s with
        | Ok _ => None
        | Raise e => Some e
        end
    | _, _ => None
    end
  else None.

(** [runs m w P]: from [w], [m] changes nothing but the trace, to which it
    adds [new], and its outcome [r] satisfies [P r new]. *)
Definition runs {A} (m : M A) (w : World) (P : Result A -> list Call -> Prop) : Prop :=
  exists r new, m w = (r, set_log w (log w ++ new)) /\ P r new.

(** The world a call to [send] leaves behind, the trace apart: the
    configuration has been ensured when the user has an address. *)
Definition after_send (w : World) (user : UserResponse) : World :=
  if Py.opt_truthy (ur_email user) then (_ensure_configuration w).2 else w.

(** The paragraphs of a message body: greeting, the given lines, sign-off. *)
Definition paragraphs (identifier : string) (lines : list string) : string :=
  Py.join (Py.nl +:+ Py.nl)
    (["Hello " +:+ identifier +:+ ","] ++ lines ++
     [Py.nl +:+ "Regards,"; "Your VPN Administrator"]).




(** The steps of an SMTP session after the connection is made: STARTTLS when
    the connection is not implicitly secured and [use_tls] is set, a login
    when both credentials are set, then the message. *)
Definition smtp_steps (s : SMTPSettings) (message : EmailMessage) : list Call :=
  ((if negb (use_ssl s) && use_tls s then [SMTPStartTLS] else []) ++
   (match username s, password s with
    | Some u, Some p => if Py.str_truthy u && Py.str_truthy p then [SMTPLogin u p] else []
    | _, _ => []
    end) ++
   [SMTPSendMessage message])%list.

(** A whole session: connect, the steps, quit. *)
Definition smtp_session (s : SMTPSettings) (message : EmailMessage) : list Call :=
  (SMTPConnect (use_ssl s) (host s) (port s) :: smtp_steps s message ++ [SMTPQuit])%list.



(** First and last character of a string, and its characters. *)
Definition first_char (s : string) : option ascii :=
  match s with
  | EmptyString => None
  | String a _ => Some a
  end.

Fixpoint last_char (s : string) : option ascii :=
  match s with
  | EmptyString => None
  | String a EmptyString => Some a
  | String _ rest => last_char rest
  end.


(** * Properties *)

(** ** SMTP settings validation *)

Lemma validate_tls_ssl_ok (use_ssl_ use_tls_ : bool) :
  is_ok (validate_tls_ssl use_ssl_ {[ "use_tls" := Py.VBool use_tls_ ]})
  = negb (use_ssl_ && use_tls_).
Proof.
  unfold validate_tls_ssl. rewrite lookup_singleton_eq. simpl.
  destruct use_ssl_, use_tls_; reflexivity.
Qed.

(** C4 (as amended): validation rejects a configuration exactly when both
    [use_tls] and [use_ssl] are enabled.  Among settings with a port in
    range, those with both flags set are refused and all others -- one flag
    set, or none (plain SMTP) -- are accepted, returned unchanged. *)
Theorem C4_validation_rejects_exactly_both (s : EmailSMTPSettingsUpdate) :
  is_ok (validate_smtp_settings s)
  = (Z.leb 1 (upd_port s) && Z.leb (upd_port s) 65535)
    && negb (upd_use_tls s && upd_use_ssl s)
  /\ validate_smtp_settings s
     = (if is_ok (validate_smtp_settings s) then Ok s else validate_smtp_settings s)
  /\ is_ok (validate_tls_ssl (upd_use_ssl s) {[ "use_tls" := Py.VBool (upd_use_tls s) ]})
     = negb (upd_use_tls s && upd_use_ssl s).
Proof.
  pose proof (validate_tls_ssl_ok (upd_use_ssl s) (upd_use_tls s)) as Hv.
  unfold validate_smtp_settings.
  destruct (Z.leb 1 (upd_port s) && Z.leb (upd_port s) 65535); simpl.
  - destruct (validate_tls_ssl _ _) eqn:E; simpl in *;
      destruct (upd_use_tls s), (upd_use_ssl s); simpl in *; try discriminate; auto.
  - rewrite Hv. destruct (upd_use_tls s), (upd_use_ssl s); auto.
Qed.

(** ** Magic-link verification: the failure redirect *)

(** C3: when verification fails, the response is a 303 redirect without a
    cookie whose target is [/?login=expired] exactly when the internal error
    code is ["expired"] and [/?login=invalid] for every other code (or none);
    hence two failures whose codes are both other than ["expired"] -- not
    found, already used -- get the same response. *)
Theorem C3_failure_redirect (error : option string) (request : Request) :
  verify_magic_link (None, error) request
  = {| location := if bool_decide (error = Some "expired")
                   then "/?login=expired" else "/?login=invalid";
       status_code := 303;
       set_cookie := None |}
  /\ (forall error' request',
        error <> Some "expired" -> error' <> Some "expired" ->
        verify_magic_link (None, error') request' = verify_magic_link (None, error) request).
Proof.
  split.
  - unfold verify_magic_link.
    destruct (decide (error = Some "expired")) as [->|Hne].
    + reflexivity.
    + rewrite bool_decide_eq_true_2 by assumption.
      rewrite (bool_decide_eq_false_2 (error = Some "expired")) by assumption.
      reflexivity.
  - intros error' request' H H'. unfold verify_magic_link.
    rewrite !bool_decide_eq_true_2 by assumption. reflexivity.
Qed.

(** ** Magic-link request *)

Lemma request_magic_link_response (email : string) (request : Request) (w : World) :
  response_of (request_magic_link email request w) = Ok {| detail := GENERIC_MESSAGE |}.
Proof.
  unfold response_of, request_magic_link, mbind, M_bind, get_world, mret, M_ret.
  destruct (lookup_dbuser (db w) email) as [u|]; [|reflexivity].
  destruct (negb (Py.opt_truthy (dbuser_email u))); reflexivity.
Qed.

(** C2: every magic-link request is answered with status 202 and the fixed
    generic message, whatever the identifier and the state of the store; so
    the responses to any two requests -- for a user with an address, for one
    without, for nobody -- are equal. *)
Theorem C2_response_independent_of_account (email1 email2 : string)
    (request1 request2 : Request) (w1 w2 : World) :
  response_of (post_auth_magic_link email1 request1 w1) = Ok accepted
  /\ response_of (post_auth_magic_link email1 request1 w1)
     = response_of (post_auth_magic_link email2 request2 w2).
Proof.
  assert (H : forall e r w, response_of (post_auth_magic_link e r w) = Ok accepted).
  { intros e r w. pose proof (request_magic_link_response e r w) as H.
    unfold response_of, post_auth_magic_link, mbind, M_bind, mret, M_ret in *.
    destruct (request_magic_link e r w) as [[[m ts]|ex] w']; simpl in *; [|discriminate].
    inversion H; subst. reflexivity. }
  split; [apply H | rewrite !H; reflexivity].
Qed.

(** C8 (as amended): when the identifier as typed (stripped) matches no
    registered user, the one fallback is a lookup of the lowercased
    identifier: the user the request goes on with is the one registered
    under the lowercased identifier, if any.  When that lookup finds a user
    with an address a token is issued for that user and the mail to that
    address is queued; when it finds nobody the request is treated as
    matching no account -- nothing is stored and nothing is queued --
    whatever else is registered. *)
Theorem C8_lowercase_fallback (d : DB) (email : string)
    (Hexact : get_user d (str_strip email) = None) :
  lookup_dbuser d email = get_user d (str_lower (str_strip email))
  /\ (forall (w : World) (request : Request) (u : DBUser),
        db w = d ->
        get_user d (str_lower (str_strip email)) = Some u ->
        Py.opt_truthy (dbuser_email u) = true ->
        exists task w',
          request_magic_link email request w = (Ok ({| detail := GENERIC_MESSAGE |}, [task]), w')
          /\ Some (task_email task) = dbuser_email u
          /\ exists row, db_tokens (db w') = (db_tokens d ++ [row])%list
                         /\ tok_user_id row = dbuser_id u
                         /\ tok_used_at row = None)
  /\ (forall (w : World) (request : Request),
        db w = d ->
        get_user d (str_lower (str_strip email)) = None ->
        request_magic_link email request w = (Ok ({| detail := GENERIC_MESSAGE |}, []), w)).
Proof.
  assert (Hl : lookup_dbuser d email = get_user d (str_lower (str_strip email))).
  { unfold lookup_dbuser. rewrite Hexact. case_bool_decide as Hne; [reflexivity|].
    rewrite Hne. symmetry. exact Hexact. }
  split; [exact Hl|]. split.
  - intros w request u Hd Hu Hmail.
    unfold request_magic_link, mbind, M_bind, get_world, mret, M_ret.
    rewrite Hd, Hl, Hu, Hmail. cbn [negb].
    unfold create_user_login_token. cbn [fst snd].
    eexists _, _. split; [reflexivity|]. cbn [task_email].
    split.
    + destruct (dbuser_email u); [reflexivity | discriminate].
    + cbn [db set_db set_rng_pos db_tokens set_tokens]. rewrite Hd.
      eexists. split; [reflexivity|]. split; reflexivity.
  - intros w request Hd Hnone.
    unfold request_magic_link, mbind, M_bind, get_world, mret, M_ret.
    rewrite Hd, Hl, Hnone. reflexivity.
Qed.

(** ** Login tokens are consumed at most once *)

Lemma find_token_map (g : UserLoginToken -> UserLoginToken) (h : string)
    (ts : list UserLoginToken) :
  (forall t, tok_token_hash (g t) = tok_token_hash t) ->
  find_token h (List.map g ts) = g <$> find_token h ts.
Proof.
  intros Hg. unfold find_token. induction ts as [|t ts IH]; simpl; [reflexivity|].
  rewrite Hg. destruct (String.eqb (tok_token_hash t) h); [reflexivity | exact IH].
Qed.

Lemma find_token_app (h : string) (ts more : list UserLoginToken) (row : UserLoginToken) :
  find_token h ts = Some row -> find_token h (ts ++ more)%list = Some row.
Proof.
  unfold find_token. induction ts as [|t ts IH]; simpl; [discriminate|].
  destruct (String.eqb (tok_token_hash t) h); [trivial | exact IH].
Qed.

Lemma find_token_hash (h : string) (ts : list UserLoginToken) (row : UserLoginToken) :
  find_token h ts = Some row -> String.eqb (tok_token_hash row) h = true.
Proof.
  unfold find_token. intros H. apply List.find_some in H. exact (proj2 H).
Qed.

Lemma unconsumed_found (h : string) (ts : list UserLoginToken) (row : UserLoginToken) :
  find_token h ts = Some row -> tok_used_at row = None ->
  unconsumed h row = true /\ length (List.filter (unconsumed h) ts) <> 0%nat.
Proof.
  intros Hf Hu.
  assert (Hun : unconsumed h row = true).
  { unfold unconsumed. rewrite (find_token_hash _ _ _ Hf).
    rewrite bool_decide_eq_true_2 by assumption. reflexivity. }
  split; [exact Hun|].
  apply List.find_some in Hf as [Hin _].
  assert (Hin' : List.In row (List.filter (unconsumed h) ts))
    by (apply List.filter_In; split; assumption).
  destruct (List.filter (unconsumed h) ts); [destruct Hin' | simpl; lia].
Qed.

Lemma used_not_unconsumed (h : string) (t : UserLoginToken) :
  tok_used_at t <> None -> unconsumed h t = false.
Proof.
  intros H. unfold unconsumed. rewrite bool_decide_eq_false_2 by assumption.
  apply andb_false_r.
Qed.

(** The conditional update leaves every row alone whose [used_at] is set. *)
Lemma mark_token_used_skips_used (h : string) (now : Z) (ip ua : option string)
    (ts : list UserLoginToken) (i : nat) (t : UserLoginToken) :
  ts !! i = Some t -> tok_used_at t <> None ->
  (mark_token_used h now ip ua ts).1 !! i = Some t.
Proof.
  intros Hi Hu. unfold mark_token_used. simpl.
  change (List.map ?f ts) with (f <$> ts).
  rewrite list_lookup_fmap, Hi. simpl.
  rewrite used_not_unconsumed by assumption. reflexivity.
Qed.

Lemma consume_first (w : World) (p : string) (row : UserLoginToken)
    (ip ua : option string) :
  find_token (hash_token p) (db_tokens (db w)) = Some row ->
  tok_used_at row = None ->
  clock w <= tok_expires_at row ->
  consume_user_login_token p ip ua w
  = (Ok (get_user_by_id (db w) (tok_user_id row), None),
     set_db w (set_tokens (db w)
       (mark_token_used (hash_token p) (clock w) ip ua (db_tokens (db w))).1))
  /\ find_token (hash_token p)
       (mark_token_used (hash_token p) (clock w) ip ua (db_tokens (db w))).1
     = Some (consumed_by (clock w) ip ua row).
Proof.
  intros Hf Hu Hexp.
  destruct (unconsumed_found _ _ _ Hf Hu) as [Hun Hcount].
  split.
  - unfold consume_user_login_token. rewrite Hf.
    rewrite bool_decide_eq_false_2 by (rewrite Hu; auto).
    replace (Z.ltb (tok_expires_at row) (clock w)) with false by (symmetry; apply Z.ltb_ge; lia).
    unfold mark_token_used.
    apply Nat.eqb_neq in Hcount. rewrite Hcount. reflexivity.
  - unfold mark_token_used. simpl.
    rewrite find_token_map.
    + rewrite Hf. simpl. rewrite Hun. reflexivity.
    + intros t. destruct (unconsumed (hash_token p) t); reflexivity.
Qed.

Lemma consume_used (w : World) (p : string) (row : UserLoginToken) (ip ua : option string) :
  find_token (hash_token p) (db_tokens (db w)) = Some row ->
  tok_used_at row <> None ->
  consume_user_login_token p ip ua w = (Ok (None, Some AlreadyUsed), w).
Proof.
  intros Hf Hu. unfold consume_user_login_token. rewrite Hf.
  rewrite bool_decide_eq_true_2 by assumption. reflexivity.
Qed.

(** Once consumed, a row is never written again, whatever is issued or
    consumed afterwards and however much time passes. *)
Lemma used_row_frozen (h : string) (row : UserLoginToken) (op : TokenOp) (w : World) :
  find_token h (db_tokens (db w)) = Some row ->
  tok_used_at row <> None ->
  find_token h (db_tokens (db (run_op op w))) = Some row.
Proof.
  intros Hf Hu. destruct op as [dbuser ttl ip ua | token ip ua | t]; simpl.
  - apply find_token_app. exact Hf.
  - unfold consume_user_login_token.
    destruct (find_token (hash_token token) (db_tokens (db w))) as [r|]; [|exact Hf].
    destruct (bool_decide (tok_used_at r <> None)); [exact Hf|].
    destruct (Z.ltb (tok_expires_at r) (clock w)); [exact Hf|].
    unfold mark_token_used.
    destruct (Nat.eqb _ 0); [exact Hf|]. simpl.
    rewrite find_token_map.
    + rewrite Hf. simpl. rewrite used_not_unconsumed by assumption. reflexivity.
    + intros t. destruct (unconsumed (hash_token token) t); reflexivity.
  - exact Hf.
Qed.

Lemma used_row_frozen_ops (h : string) (row : UserLoginToken) (ops : list TokenOp) (w : World) :
  find_token h (db_tokens (db w)) = Some row ->
  tok_used_at row <> None ->
  find_token h (db_tokens (db (run_ops ops w))) = Some row.
Proof.
  revert w. induction ops as [|op ops IH]; intros w Hf Hu; [exact Hf|].
  unfold run_ops. simpl. apply IH; [|exact Hu].
  apply used_row_frozen; assumption.
Qed.

(** C1: for an issued, unconsumed token presented before its expiry, the
    first consumption succeeds with the token's user and turns [used_at] from
    null into the current time, recording the consuming IP and user agent; a
    second consumption with the same plaintext, whenever it comes, fails with
    [AlreadyUsed] and writes nothing; the write is a conditional update that
    leaves rows with [used_at] set untouched; and after the first consumption
    the row stays as it is through every later sequence of issues and
    consumptions, so [used_at] goes from null to non-null at most once. *)
Theorem C1_consume_twice (w : World) (p : string) (row : UserLoginToken) (u : DBUser)
    (ip1 ua1 ip2 ua2 : option string) (now2 : Z)
    (Hissued : find_token (hash_token p) (db_tokens (db w)) = Some row)
    (Hfresh : tok_used_at row = None)
    (Hlive : clock w <= tok_expires_at row)
    (Huser : get_user_by_id (db w) (tok_user_id row) = Some u) :
  let first := consume_user_login_token p ip1 ua1 w in
  let w1 := first.2 in
  let row1 := consumed_by (clock w) ip1 ua1 row in
  first.1 = Ok (Some u, None)
  /\ find_token (hash_token p) (db_tokens (db w1)) = Some row1
  /\ tok_used_at row1 = Some (clock w)
  /\ tok_consumed_ip row1 = ip1 /\ tok_consumed_user_agent row1 = ua1
  /\ consume_user_login_token p ip2 ua2 (set_clock w1 now2)
     = (Ok (None, Some AlreadyUsed), set_clock w1 now2)
  /\ (forall h now ip ua ts i t,
        ts !! i = Some t -> tok_used_at t <> None ->
        (mark_token_used h now ip ua ts).1 !! i = Some t)
  /\ (forall ops : list TokenOp,
        find_token (hash_token p) (db_tokens (db (run_ops ops w1))) = Some row1).
Proof.
  intros first w1 row1.
  destruct (consume_first w p row ip1 ua1 Hissued Hfresh Hlive) as [Hrun Hfind].
  assert (Hw1 : find_token (hash_token p) (db_tokens (db w1)) = Some row1).
  { subst w1 first. rewrite Hrun. exact Hfind. }
  assert (Hused : tok_used_at row1 <> None) by (subst row1; simpl; discriminate).
  repeat apply conj.
  - subst first. rewrite Hrun. cbv beta iota delta [fst]. rewrite Huser. reflexivity.
  - exact Hw1.
  - reflexivity.
  - reflexivity.
  - reflexivity.
  - apply (consume_used (set_clock w1 now2) p row1); assumption.
  - intros. apply mark_token_used_skips_used; assumption.
  - intros ops. apply used_row_frozen_ops; assumption.
Qed.

(** ** Dictionaries built from lists of items *)

Lemma foldl_insert_lookup `{Countable K} {V} (items : list (K * V)) (m : gmap K V) (k : K) :
  foldl (fun m kv => <[kv.1 := kv.2]> m) m items !! k
  = match assoc_last k items with
    | Some v => Some v
    | None => m !! k
    end.
Proof.
  revert m. induction items as [|[k' v] items IH]; intros m; simpl; [reflexivity|].
  rewrite IH. destruct (assoc_last k items); [reflexivity|].
  destruct (decide (k = k')) as [->|Hne].
  - apply lookup_insert_eq.
  - apply lookup_insert_ne. congruence.
Qed.

Lemma dict_of_lookup `{Countable K} {V} (items : list (K * V)) (k : K) :
  Py.dict_of items !! k = assoc_last k items.
Proof.
  unfold Py.dict_of. rewrite foldl_insert_lookup, lookup_empty.
  destruct (assoc_last k items); reflexivity.
Qed.

Lemma assoc_last_absent `{EqDecision K} {V} (items : list (K * V)) (k : K) :
  k ∉ items.*1 -> assoc_last k items = None.
Proof.
  induction items as [|[k' v] items IH]; simpl; [reflexivity|].
  intros Hk. apply not_elem_of_cons in Hk as [Hne Hk].
  rewrite IH by exact Hk. destruct (decide (k = k')); [contradiction | reflexivity].
Qed.

Lemma assoc_last_unique `{EqDecision K} {V} (items : list (K * V)) (k : K) (v : V) :
  NoDup items.*1 -> (k, v) ∈ items -> assoc_last k items = Some v.
Proof.
  induction items as [|[k' v'] items IH]; simpl; intros Hnd Hin.
  - apply elem_of_nil in Hin. destruct Hin.
  - apply NoDup_cons in Hnd as [Hk' Hnd].
    apply elem_of_cons in Hin as [Heq|Hin].
    + inversion Heq; subst. rewrite assoc_last_absent by exact Hk'.
      destruct (decide (k' = k')); [reflexivity | contradiction].
    + rewrite (IH Hnd Hin). reflexivity.
Qed.

(** The comprehension over the rows of a table that is unique on its key
    gives the table back. *)
Lemma dict_of_map_to_list `{Countable K} {V} (m : gmap K V) :
  Py.dict_of (map_to_list m) = m.
Proof.
  apply map_eq. intros k. rewrite dict_of_lookup.
  destruct (m !! k) as [v|] eqn:E.
  - apply assoc_last_unique.
    + apply NoDup_fst_map_to_list.
    + apply elem_of_map_to_list. exact E.
  - apply assoc_last_absent. intros Hin.
    apply list_elem_of_fmap in Hin as [[k' v] [-> Hin]].
    apply elem_of_map_to_list in Hin. simpl in *. congruence.
Qed.

Lemma all_false_lookup (t : Trigger) :
  assoc_last t ((fun trigger => (trigger, false)) <$> EmailNotificationTrigger.members)
  = Some false.
Proof. destruct t; reflexivity. Qed.

Lemma preference_payload_lookup (preferences : list EmailNotificationPreferenceModel)
    (t : Trigger) :
  preference_payload_of preferences !! t = Some (default false (requested preferences t)).
Proof.
  unfold preference_payload_of, requested.
  rewrite lookup_union, !dict_of_lookup, all_false_lookup.
  destruct (assoc_last t _); reflexivity.
Qed.

Lemma requested_absent (preferences : list EmailNotificationPreferenceModel) (t : Trigger) :
  t ∉ pref_trigger <$> preferences -> requested preferences t = None.
Proof.
  intros Hout. unfold requested. apply assoc_last_absent.
  rewrite <- list_fmap_compose. exact Hout.
Qed.

(** ** The configuration write *)

(** What a write leaves behind: the settings row the upsert built, the
    preference table overridden by the payload built from the request, the
    cache reset to its initial state, and nothing else changed. *)
Lemma update_config_run (payload : EmailNotificationConfigUpdate) (w : World) :
  exists resp row,
    update_email_notification_config payload w
    = (Ok resp,
       set_cache
         (set_db w
            (set_prefs (set_smtp (db w) (Some row))
               (preference_payload_of (cfg_preferences payload) ∪ db_prefs (db w))))
         Manager_init)
    /\ (upsert_email_smtp_settings
          (smtp_payload_of (db_smtp (db w)) (cfg_smtp payload)) w).1 = Ok row.
Proof.
  cbv beta iota zeta delta [update_email_notification_config upsert_email_smtp_settings
    update_email_notification_preferences invalidate_email_notifications_cache
    invalidate put_cache get_email_smtp_settings mbind M_bind get_world mret M_ret fst].
  eexists _, _. split; reflexivity.
Qed.

(** C10: after every configuration write the stored preferences have a row
    for each of the twelve triggers; a trigger the request lists is stored
    with the value the request gives it, and a trigger absent from the
    request's list is stored with [enabled = false]. *)
Theorem C10_preferences_total_after_write (payload : EmailNotificationConfigUpdate)
    (w : World) :
  let run := update_email_notification_config payload w in
  let stored := db_prefs (db run.2) in
  is_ok run.1 = true
  /\ length EmailNotificationTrigger.members = 12%nat
  /\ (forall t : Trigger, t ∈ EmailNotificationTrigger.members /\ is_Some (stored !! t))
  /\ (forall t : Trigger,
        stored !! t = Some (default false (requested (cfg_preferences payload) t)))
  /\ (forall t : Trigger,
        t ∉ pref_trigger <$> cfg_preferences payload -> stored !! t = Some false).
Proof.
  intros run stored.
  destruct (update_config_run payload w) as (resp & row & Hrun & _).
  assert (Hstored : forall t, stored !! t
            = Some (default false (requested (cfg_preferences payload) t))).
  { intros t. subst stored run. rewrite Hrun.
    cbv beta iota delta [snd db set_cache set_db db_prefs set_prefs].
    apply lookup_union_Some_l, preference_payload_lookup. }
  repeat apply conj.
  - subst run. rewrite Hrun. reflexivity.
  - reflexivity.
  - intros t. split.
    + destruct t; unfold EmailNotificationTrigger.members; set_solver.
    + rewrite Hstored. eauto.
  - apply Hstored.
  - intros t Hout. rewrite Hstored, requested_absent by exact Hout. reflexivity.
Qed.

(** ** The cache after a write *)

(** A reload fills the cache with what the store holds. *)
Lemma load_configuration_run (w : World) :
  _load_configuration w
  = (Ok tt,
     set_cache w
       {| _settings :=
            match db_smtp (db w) with
            | Some s =>
                Some {| host := row_host s; port := row_port s;
                        username := row_username s; password := row_password s;
                        use_tls := row_use_tls s; use_ssl := row_use_ssl s;
                        from_email := row_from_email s; from_name := row_from_name s;
                        updated_at := default (clock w) (row_updated_at s) |}
            | None => None
            end;
          _preferences := db_prefs (db w);
          _last_loaded := Some (clock w) |}).
Proof.
  cbv beta iota zeta delta [_load_configuration get_email_notification_preferences
    get_email_smtp_settings put_cache utcnow mbind M_bind get_world].
  rewrite dict_of_map_to_list. reflexivity.
Qed.

(** With no settings in the cache, [is_enabled] reloads and answers from the
    store. *)
Lemma is_enabled_reloads (trigger : Trigger) (w : World) :
  _settings (cache w) = None ->
  is_enabled trigger w
  = (Ok (default false (db_prefs (db w) !! trigger)), (_load_configuration w).2).
Proof.
  intros Hnone.
  cbv beta iota zeta delta [is_enabled _ensure_configuration mbind M_bind get_world mret M_ret].
  rewrite bool_decide_eq_true_2 by exact Hnone.
  cbv beta iota delta [orb].
  rewrite load_configuration_run. reflexivity.
Qed.

(** C6: a configuration write leaves the cache in its initial, empty state;
    the next [is_enabled] call therefore reloads settings and preferences
    from the store as the write left it, and its answer is the value just
    written for the trigger: the one the request gives it, [false] when the
    request does not list it. *)
Theorem C6_no_stale_read_after_write (payload : EmailNotificationConfigUpdate)
    (trigger : Trigger) (w : World) :
  let w1 := (update_email_notification_config payload w).2 in
  let read := is_enabled trigger w1 in
  cache w1 = Manager_init
  /\ read.1 = Ok (default false (requested (cfg_preferences payload) trigger))
  /\ read.1 = Ok (default false (db_prefs (db w1) !! trigger))
  /\ _preferences (cache read.2) = db_prefs (db w1)
  /\ is_Some (_settings (cache read.2))
  /\ host <$> _settings (cache read.2) = row_host <$> db_smtp (db w1)
  /\ _last_loaded (cache read.2) = Some (clock w1)
  /\ db read.2 = db w1.
Proof.
  intros w1 read.
  destruct (update_config_run payload w) as (resp & row & Hrun & _).
  assert (Hw1 : w1 = set_cache
            (set_db w
               (set_prefs (set_smtp (db w) (Some row))
                  (preference_payload_of (cfg_preferences payload) ∪ db_prefs (db w))))
            Manager_init) by (subst w1; rewrite Hrun; reflexivity).
  assert (Hread : read = (Ok (default false (db_prefs (db w1) !! trigger)),
                          (_load_configuration w1).2)).
  { subst read. apply is_enabled_reloads. rewrite Hw1. reflexivity. }
  assert (Hval : db_prefs (db w1) !! trigger
                 = Some (default false (requested (cfg_preferences payload) trigger))).
  { rewrite Hw1. simpl. apply lookup_union_Some_l, preference_payload_lookup. }
  rewrite Hread, load_configuration_run.
  cbn [fst snd cache set_cache _preferences _settings _last_loaded db].
  repeat apply conj.
  - rewrite Hw1. reflexivity.
  - rewrite Hval. reflexivity.
  - reflexivity.
  - reflexivity.
  - rewrite Hw1. cbv. eauto.
  - rewrite Hw1. reflexivity.
  - reflexivity.
  - reflexivity.
Qed.

(** ** The secret on a configuration write *)

Lemma insert_if_some_lookup_ne (key k : string) (o : option Py.Val) (d : gmap string Py.Val) :
  key <> k -> insert_if_some key o d !! k = d !! k.
Proof.
  intros Hne. unfold insert_if_some. destruct o; [|reflexivity].
  apply lookup_insert_ne. exact Hne.
Qed.

Lemma model_dump_password (s : EmailSMTPSettingsUpdate) :
  model_dump_exclude_none s !! "password" = Py.VStr <$> upd_password s.
Proof.
  unfold model_dump_exclude_none.
  rewrite !insert_if_some_lookup_ne by discriminate.
  unfold insert_if_some. destruct (upd_password s); simpl.
  - apply lookup_insert_eq.
  - rewrite !lookup_insert_ne by discriminate. apply lookup_empty.
Qed.

Lemma blank_to_none_lookup_ne (key k : string) (d : gmap string Py.Val) :
  key <> k -> blank_to_none key d !! k = d !! k.
Proof.
  intros Hne. unfold blank_to_none. case_bool_decide; [|reflexivity].
  apply lookup_insert_ne. exact Hne.
Qed.

(** What the router hands to the store for the secret: nothing when the
    request has none and settings exist, an explicit [None] when the request
    has none and no settings exist or when the request's secret is empty, and
    the secret itself when it is not empty. *)
Lemma smtp_payload_password (existing : option EmailSMTPSettings)
    (smtp : EmailSMTPSettingsUpdate) :
  smtp_payload_of existing smtp !! "password"
  = match upd_password smtp with
    | Some s => Some (if Py.str_truthy s then Py.VStr s else Py.VNone)
    | None => match existing with Some _ => None | None => Some Py.VNone end
    end.
Proof.
  assert (Hget : Py.dict_get
            (blank_to_none "from_name" (blank_to_none "username" (model_dump_exclude_none smtp)))
            "password" = Py.of_opt_str (upd_password smtp)).
  { unfold Py.dict_get.
    rewrite !blank_to_none_lookup_ne, model_dump_password by discriminate.
    destruct (upd_password smtp); reflexivity. }
  cbv beta zeta delta [smtp_payload_of]. rewrite Hget.
  destruct (upd_password smtp) as [s|] eqn:E; cbn [Py.of_opt_str].
  - rewrite bool_decide_eq_true_2 by discriminate.
    rewrite lookup_insert_eq. reflexivity.
  - rewrite bool_decide_eq_false_2 by (intros H; apply H; reflexivity).
    destruct existing as [e|].
    + rewrite bool_decide_eq_false_2 by discriminate.
      rewrite !blank_to_none_lookup_ne, model_dump_password, E by discriminate.
      reflexivity.
    + rewrite bool_decide_eq_true_2 by reflexivity. apply lookup_insert_eq.
Qed.

Lemma str_truthy_nonempty (s : string) : s <> "" -> Py.str_truthy s = true.
Proof. destruct s; [congruence | reflexivity]. Qed.

Lemma upsert_row_password (payload : gmap string Py.Val) (w : World) :
  exists row,
    upsert_email_smtp_settings payload w = (Ok row, set_db w (set_smtp (db w) (Some row)))
    /\ row_password row
       = match db_smtp (db w) with
         | Some old => secret_column payload (row_password old)
         | None => as_opt_str (Py.dict_get payload "password")
         end.
Proof.
  unfold upsert_email_smtp_settings.
  destruct (db_smtp (db w)); eexists; split; reflexivity.
Qed.

(** C7: on a configuration write, a secret that is present but empty leaves
    the stored secret as it was, and a secret that is present and not empty
    becomes the stored secret. *)
Theorem C7_empty_secret_keeps_nonempty_replaces (payload : EmailNotificationConfigUpdate)
    (w : World) :
  let w1 := (update_email_notification_config payload w).2 in
  (upd_password (cfg_smtp payload) = Some "" ->
     stored_secret (db w1) = stored_secret (db w))
  /\ (forall s : string,
        upd_password (cfg_smtp payload) = Some s -> s <> "" ->
        stored_secret (db w1) = Some s).
Proof.
  intros w1.
  destruct (update_config_run payload w) as (resp & row & Hrun & Hrow).
  assert (Hsecret : stored_secret (db w1) = row_password row).
  { subst w1. rewrite Hrun. reflexivity. }
  destruct (upsert_row_password (smtp_payload_of (db_smtp (db w)) (cfg_smtp payload)) w)
    as (row' & Hup & Hpw).
  rewrite Hup in Hrow. cbn [fst] in Hrow. injection Hrow as ->.
  rewrite Hsecret, Hpw. clear Hsecret Hpw Hup Hrun.
  pose proof (smtp_payload_password (db_smtp (db w)) (cfg_smtp payload)) as Hget.
  unfold stored_secret, secret_column, Py.dict_get.
  split.
  - intros Hempty. rewrite Hempty in Hget. cbn [Py.str_truthy String.eqb negb] in Hget.
    rewrite Hget. destruct (db_smtp (db w)); reflexivity.
  - intros s Hs Hne. rewrite Hs, (str_truthy_nonempty s Hne) in Hget.
    rewrite Hget. destruct (db_smtp (db w)); reflexivity.
Qed.

(** ** Running the dispatcher *)


Lemma ensure_configuration_run (w : World) :
  _ensure_configuration w
  = (Ok tt, if bool_decide (_settings (cache w) = None) then (_load_configuration w).2 else w).
Proof.
  cbv beta iota delta [_ensure_configuration mbind M_bind get_world].
  rewrite orb_false_r. case_bool_decide; [|reflexivity].
  rewrite load_configuration_run. reflexivity.
Qed.

Lemma ensure_configuration_frame (w : World) :
  log (_ensure_configuration w).2 = log w
  /\ db (_ensure_configuration w).2 = db w
  /\ outside (_ensure_configuration w).2 = outside w.
Proof.
  rewrite ensure_configuration_run. cbv beta iota delta [snd].
  case_bool_decide; [rewrite load_configuration_run|]; auto.
Qed.


(** *** Computations that only add to the trace *)

Lemma set_log_same (w : World) : set_log w (log w ++ []) = w.
Proof. rewrite app_nil_r. destruct w; reflexivity. Qed.

Lemma runs_ret {A} (a : A) (w : World) (P : Result A -> list Call -> Prop) :
  P (Ok a) [] -> runs (mret a) w P.
Proof.
  intros HP. exists (Ok a), []. split; [|exact HP].
  rewrite set_log_same. reflexivity.
Qed.

Lemma runs_call (c : Call) (w : World) (P : Result unit -> list Call -> Prop) :
  (forall r, (outside w (log w) c = None -> r = Ok tt) -> P r [c]) ->
  runs (call c) w P.
Proof.
  intros HP. unfold runs, call.
  destruct (outside w (log w) c) as [e|] eqn:E.
  - exists (Raise e), [c]. split; [reflexivity|]. apply HP. discriminate.
  - exists (Ok tt), [c]. split; [reflexivity|]. apply HP. reflexivity.
Qed.

Lemma runs_bind {A B} (m : M A) (f : A -> M B) (w : World)
    (P : Result B -> list Call -> Prop) :
  runs m w (fun r l1 =>
    match r with
    | Ok a => runs (f a) (set_log w (log w ++ l1)) (fun r' l2 => P r' (l1 ++ l2)%list)
    | Raise e => P (Raise e) l1
    end) ->
  runs (m ≫= f) w P.
Proof.
  intros (r & l1 & Hm & HP). unfold runs, mbind, M_bind. rewrite Hm.
  destruct r as [a|e].
  - destruct HP as (r' & l2 & Hf & HP'). exists r', (l1 ++ l2)%list.
    split; [|exact HP']. rewrite Hf. cbn [set_log log db cache clock rng rng_pos outside].
    rewrite app_assoc. reflexivity.
  - exists (Raise e), l1. split; [reflexivity | exact HP].
Qed.

Lemma runs_get_world {B} (f : World -> M B) (w : World) (P : Result B -> list Call -> Prop) :
  runs (f w) w P -> runs (get_world ≫= f) w P.
Proof. intros H. exact H. Qed.

Lemma runs_try_except {A} (body : M A) (handler : Exn -> M A) (w : World)
    (P : Result A -> list Call -> Prop) :
  runs body w (fun r l1 =>
    match r with
    | Ok a => P (Ok a) l1
    | Raise e => runs (handler e) (set_log w (log w ++ l1)) (fun r' l2 => P r' (l1 ++ l2)%list)
    end) ->
  runs (try_except body handler) w P.
Proof.
  intros (r & l1 & Hm & HP). unfold runs, try_except. rewrite Hm.
  destruct r as [a|e].
  - exists (Ok a), l1. split; [reflexivity | exact HP].
  - destruct HP as (r' & l2 & Hf & HP'). exists r', (l1 ++ l2)%list.
    split; [|exact HP']. rewrite Hf. cbn [set_log log db cache clock rng rng_pos outside].
    rewrite app_assoc. reflexivity.
Qed.

Lemma runs_finally {A} (body : M A) (fin : M unit) (w : World)
    (P : Result A -> list Call -> Prop) :
  runs body w (fun r l1 =>
    runs fin (set_log w (log w ++ l1)) (fun r' l2 =>
      P (match r' with Ok _ => r | Raise e => Raise e end) (l1 ++ l2)%list)) ->
  runs (finally body fin) w P.
Proof.
  intros (r & l1 & Hm & r' & l2 & Hf & HP). unfold runs, finally. rewrite Hm, Hf.
  exists (match r' with Ok _ => r | Raise e => Raise e end), (l1 ++ l2)%list.
  split; [|exact HP].
  cbn [set_log log db cache clock rng rng_pos outside]. rewrite app_assoc.
  destruct r'; reflexivity.
Qed.

Lemma bind_run {A B} (m : M A) (f : A -> M B) (w w' : World) (a : A) :
  m w = (Ok a, w') -> (m ≫= f) w = f a w'.
Proof. intros H. unfold mbind, M_bind. rewrite H. reflexivity. Qed.

(** ** The SMTP session *)

Ltac session_step Hs Hu Hp Ht :=
  first
    [ apply runs_call; let r := fresh "r" in let H := fresh "Hc" in
                       intros r H; destruct r as [[]|?]
    | apply runs_get_world
    | apply runs_ret
    | apply runs_try_except
    | apply runs_finally
    | apply runs_bind ];
  cbn [set_log log outside cache];
  rewrite ?Hs; rewrite ?Hu; rewrite ?Hp; rewrite ?Ht.

Ltac session_done :=
  repeat apply conj;
  [ first [ left; reflexivity
          | right; first [ exists 0%nat; reflexivity | exists 1%nat; reflexivity
                         | exists 2%nat; reflexivity | exists 3%nat; reflexivity ] ]
  | first [ reflexivity | discriminate ]
  | let Hq := fresh "Hq" in
    intros Hq;
    repeat match goal with
           | H : outside _ _ _ = None -> _ = _ |- _ => specialize (H (Hq _ _))
           end;
    first [ congruence | split; reflexivity ] ].

(** Every run of [_deliver_email] with SMTP configured, whatever fails: the
    calls made are the connection attempt alone, or the connection followed
    by an initial part of the configured steps and the closing QUIT; the
    result is [True] only after the whole session; and when nothing fails the
    whole session runs and the result is [True]. *)
Lemma deliver_email_session (message : EmailMessage) (w : World) (s : SMTPSettings) :
  _settings (cache w) = Some s ->
  exists b new,
    _deliver_email message w = (Ok b, set_log w (log w ++ new))
    /\ (new = [SMTPConnect (use_ssl s) (host s) (port s)]
        \/ exists j, new = (SMTPConnect (use_ssl s) (host s) (port s)
                            :: take j (smtp_steps s message) ++ [SMTPQuit])%list)
    /\ (b = true -> new = smtp_session s message)
    /\ (quiet w -> b = true /\ new = smtp_session s message).
Proof.
  intros Hs.
  enough (Hruns : runs (_deliver_email message) w (fun r new =>
            exists b, r = Ok b
              /\ (new = [SMTPConnect (use_ssl s) (host s) (port s)]
                  \/ exists j, new = (SMTPConnect (use_ssl s) (host s) (port s)
                                      :: take j (smtp_steps s message) ++ [SMTPQuit])%list)
              /\ (b = true -> new = smtp_session s message)
              /\ (quiet w -> b = true /\ new = smtp_session s message))).
  { destruct Hruns as (r & new & Hrun & b & -> & H). exists b, new. split; [exact Hrun | exact H]. }
  unfold _deliver_email. apply runs_get_world. rewrite Hs.
  unfold with_smtp, when, _login_if_required, smtp_session, smtp_steps.
  destruct (use_ssl s) eqn:Hssl, (use_tls s) eqn:Htls;
    destruct (username s) as [u|] eqn:Hu; try destruct (password s) as [p|] eqn:Hp;
    try destruct (Py.str_truthy u && Py.str_truthy p) eqn:Ht.
  all: cbn [negb andb app].
  all: repeat session_step Hs Hu Hp Ht.
  all: eexists; split; [reflexivity|].
  all: cbn [app]; rewrite <- ?app_assoc; cbn [app].
  all: session_done.
Qed.




(** ** Rendering *)

Lemma wrap_message_truthy (identifier : string) (lines : list (option string)) :
  Py.str_truthy (_wrap_message identifier lines) = true.
Proof.
  unfold _wrap_message.
  set (filtered := omap _ lines). cbn [app].
  destruct (filtered ++ _)%list; reflexivity.
Qed.

(** No trigger renders to an empty subject or an empty body. *)
Lemma render_truthy (trigger : Trigger) (user : UserResponse) (context : gmap string Py.Val) :
  Py.str_truthy (_render trigger user context).1 = true
  /\ Py.str_truthy (_render trigger user context).2 = true.
Proof.
  destruct trigger; cbv beta iota zeta delta [_render fst snd];
    (split; [reflexivity | apply wrap_message_truthy]).
Qed.



(** ** [send] *)

Lemma set_log_keep (w : World) : set_log w (log w) = w.
Proof. destruct w; reflexivity. Qed.

Lemma get_world_run {B} (f : World -> M B) (w : World) : (get_world ≫= f) w = f w w.
Proof. reflexivity. Qed.

Lemma lift_ok_run {A B} (a : A) (f : A -> M B) (w : World) : (lift (Ok a) ≫= f) w = f a w.
Proof. reflexivity. Qed.

Lemma lift_raise_run {A B} (e : Exn) (f : A -> M B) (w : World) :
  (lift (Raise e) ≫= f) w = (Raise e, w).
Proof. reflexivity. Qed.

Lemma after_send_log (w : World) (user : UserResponse) : log (after_send w user) = log w.
Proof.
  unfold after_send. destruct (Py.opt_truthy (ur_email user)); [|reflexivity].
  apply ensure_configuration_frame.
Qed.


Lemma ensure_configuration_quiet (w : World) : quiet w -> quiet (_ensure_configuration w).2.
Proof.
  unfold quiet. destruct (ensure_configuration_frame w) as (_ & _ & ->). trivial.
Qed.

(** What [send] does, case by case: nothing without an address, without
    SMTP settings or with the trigger not enabled; otherwise the message is
    filled in, which may raise, and handed to [_deliver_email]. *)
Lemma send_cases (trigger : Trigger) (user : UserResponse) (context : gmap string Py.Val)
    (w : World) :
  let w0 := after_send w user in
  match Py.opt_truthy (ur_email user), _settings (cache w0), _preferences (cache w0) !! trigger with
  | true, Some s, Some true =>
      match message_for trigger user context s with
      | Ok m =>
          exists b new,
            _deliver_email m w0 = (Ok b, set_log w0 (log w ++ new))
            /\ send trigger user context w = (Ok tt, set_log w0 (log w ++ new))
      | Raise e => send trigger user context w = (Raise e, w0)
      end
  | _, _, _ => send trigger user context w = (Ok tt, w0)
  end.
Proof.
  intros w0. subst w0. unfold send, after_send.
  destruct (Py.opt_truthy (ur_email user)) eqn:Hmail; cbn [negb].
  2:{ destruct (_settings (cache w)) as [s|]; [|reflexivity].
      destruct (_preferences (cache w) !! trigger) as [[|]|]; reflexivity. }
  destruct (ensure_configuration_frame w) as (Hlog & _ & _).
  pose proof (ensure_configuration_run w) as Hrun.
  set (w0 := (_ensure_configuration w).2) in *.
  assert (Hens : _ensure_configuration w = (Ok tt, w0)).
  { rewrite Hrun. subst w0. rewrite Hrun. reflexivity. }
  rewrite (bind_run _ _ _ _ _ Hens). clear Hrun Hens.
  rewrite get_world_run.
  destruct (_settings (cache w0)) as [s|] eqn:Hs; [|reflexivity].
  destruct (_preferences (cache w0) !! trigger) as [[|]|] eqn:Hp; cbn [default negb];
    [|reflexivity|reflexivity].
  destruct (render_truthy trigger user context) as [Hsub Hbody].
  unfold message_for.
  destruct (_render trigger user context) as [subject body]. cbn [fst snd] in *.
  cbv beta iota. rewrite Hsub, Hbody. cbn [id negb orb].
  destruct (build_message subject (default "" (ur_email user)) s body) as [m|e].
  - rewrite lift_ok_run.
    destruct (deliver_email_session m w0 s Hs) as (b & new & Hdel & _).
    rewrite Hlog in Hdel.
    exists b, new. split; [exact Hdel|].
    rewrite (bind_run _ _ _ _ _ Hdel). reflexivity.
  - rewrite lift_raise_run. reflexivity.
Qed.

(** When [build_error] names an exception the dispatcher was ready and
    filling in the message raised it; when it names none, a ready dispatcher
    has its message. *)
Lemma build_error_spec (w : World) (trigger : Trigger) (user : UserResponse)
    (context : gmap string Py.Val) :
  match build_error w trigger user context with
  | Some e => exists s, ready w trigger user s /\ message_for trigger user context s = Raise e
  | None => forall s, ready w trigger user s ->
                      exists m, message_for trigger user context s = Ok m
  end.
Proof.
  unfold build_error, ready.
  destruct (Py.opt_truthy (ur_email user)); [|intros s (Hbad & _); discriminate].
  cbv zeta.
  destruct (_settings (cache (_ensure_configuration w).2)) as [s|] eqn:Hs;
    [|intros s (_ & Hbad & _); discriminate].
  destruct (_preferences (cache (_ensure_configuration w).2) !! trigger) as [[|]|] eqn:Hp;
    [|intros s' (_ & _ & Hbad); discriminate|intros s' (_ & _ & Hbad); discriminate].
  destruct (message_for trigger user context s) as [m|e] eqn:Hm.
  - intros s' (_ & Hs' & _). injection Hs' as <-. exists m. exact Hm.
  - exists s. auto.
Qed.

(** A run of [send]: its result is the exception raised while the message
    was filled in, if any, and otherwise it returns; it only adds to the
    trace -- nothing unless the dispatcher was ready and the message was
    filled in, and then the attempt of one session. *)
Lemma send_outcome (trigger : Trigger) (user : UserResponse) (context : gmap string Py.Val)
    (w : World) :
  exists new,
    send trigger user context w
    = (match build_error w trigger user context with Some e => Raise e | None => Ok tt end,
       set_log (after_send w user) (log w ++ new))
    /\ (forall e, build_error w trigger user context = Some e -> new = [])
    /\ ((forall s, ~ ready w trigger user s) -> new = [])
    /\ (forall s m,
          ready w trigger user s ->
          message_for trigger user context s = Ok m ->
          (new = [SMTPConnect (use_ssl s) (host s) (port s)]
           \/ exists j, new = (SMTPConnect (use_ssl s) (host s) (port s)
                               :: take j (smtp_steps s m) ++ [SMTPQuit])%list)
          /\ (quiet w -> new = smtp_session s m)).
Proof.
  pose proof (send_cases trigger user context w) as H. cbv zeta in H.
  pose proof (after_send_log w user) as Hlog.
  assert (Hsilent :
            send trigger user context w = (Ok tt, after_send w user) ->
            build_error w trigger user context = None ->
            (forall s, ~ ready w trigger user s) ->
            exists new,
              send trigger user context w
              = (match build_error w trigger user context with
                 | Some e => Raise e | None => Ok tt end,
                 set_log (after_send w user) (log w ++ new))
              /\ (forall e, build_error w trigger user context = Some e -> new = [])
              /\ ((forall s, ~ ready w trigger user s) -> new = [])
              /\ (forall s m,
                    ready w trigger user s ->
                    message_for trigger user context s = Ok m ->
                    (new = [SMTPConnect (use_ssl s) (host s) (port s)]
                     \/ exists j, new = (SMTPConnect (use_ssl s) (host s) (port s)
                                         :: take j (smtp_steps s m) ++ [SMTPQuit])%list)
                    /\ (quiet w -> new = smtp_session s m))).
  { intros Hrun Hnone Hnot. exists []. rewrite Hnone, app_nil_r, <- Hlog, set_log_keep.
    repeat apply conj; [exact Hrun | reflexivity | reflexivity |].
    intros s m Hr. destruct (Hnot s Hr). }
  destruct (Py.opt_truthy (ur_email user)) eqn:Hmail.
  2:{ apply Hsilent.
      - destruct (_settings (cache (after_send w user))) as [s|]; [|exact H].
        destruct (_preferences (cache (after_send w user)) !! trigger) as [[|]|]; exact H.
      - unfold build_error. rewrite Hmail. reflexivity.
      - intros s (Hbad & _). congruence. }
  assert (Hafter : after_send w user = (_ensure_configuration w).2)
    by (unfold after_send; rewrite Hmail; reflexivity).
  rewrite Hafter in *.
  destruct (_settings (cache (_ensure_configuration w).2)) as [s|] eqn:Hs.
  2:{ apply Hsilent; [exact H | |].
      - unfold build_error. rewrite Hmail. cbv zeta. rewrite Hs. reflexivity.
      - intros s (_ & Hbad & _). congruence. }
  destruct (_preferences (cache (_ensure_configuration w).2) !! trigger) as [[|]|] eqn:Hp.
  2,3: apply Hsilent; [exact H | |];
    [ unfold build_error; rewrite Hmail; cbv zeta; rewrite Hs, Hp; reflexivity
    | intros s' (_ & _ & Hbad); congruence ].
  assert (Hbuild : build_error w trigger user context
                   = match message_for trigger user context s with
                     | Ok _ => None | Raise e => Some e end).
  { unfold build_error. rewrite Hmail. cbv zeta. rewrite Hs, Hp. reflexivity. }
  rewrite Hbuild.
  destruct (message_for trigger user context s) as [m|e] eqn:Hm.
  - destruct H as (b & new & Hdel & Hsend).
    exists new. repeat apply conj; [exact Hsend | intros e He; discriminate | |].
    + intros Hnot. exfalso. apply (Hnot s). unfold ready. auto.
    + intros s' m' (_ & Hs' & _) Hm'.
      assert (s' = s) as -> by congruence.
      assert (m' = m) as -> by congruence.
      destruct (deliver_email_session m (_ensure_configuration w).2 s Hs)
        as (b' & new' & Hdel' & Hshape & _ & Hquiet).
      rewrite Hlog in Hdel'. rewrite Hdel in Hdel'.
      assert (new = new').
      { injection Hdel' as _ Heq. apply app_inv_head in Heq. exact Heq. }
      subst new'. split; [exact Hshape|].
      intros Hq. apply Hquiet, ensure_configuration_quiet, Hq.
  - exists []. rewrite app_nil_r, <- Hlog, set_log_keep.
    repeat apply conj; [exact H | reflexivity | reflexivity |].
    intros s' m' (_ & Hs' & _) Hm'. congruence.
Qed.

Lemma session_attempt_starts (s : SMTPSettings) (m : EmailMessage) (new : list Call) :
  new = [SMTPConnect (use_ssl s) (host s) (port s)]
  \/ (exists j, new = (SMTPConnect (use_ssl s) (host s) (port s)
                       :: take j (smtp_steps s m) ++ [SMTPQuit])%list) ->
  exists rest, new = SMTPConnect (use_ssl s) (host s) (port s) :: rest.
Proof. intros [->|(j & ->)]; eexists; reflexivity. Qed.

Lemma render_without_number (trigger : Trigger) (user : UserResponse)
    (context : gmap string Py.Val) :
  trigger = EmailNotificationTrigger.reached_usage_percent
    /\ Py.dict_get context "percent" = Py.VNone
  \/ trigger = EmailNotificationTrigger.reached_days_left
    /\ Py.dict_get context "days" = Py.VNone ->
  (_render trigger user context).2
  = paragraphs (email_or_username user) [_format_user_details user].
Proof.
  intros [[-> H]|[-> H]]; cbv beta iota zeta delta [_render snd]; rewrite H;
    rewrite bool_decide_eq_false_2 by (intros Hne; apply Hne; reflexivity);
    reflexivity.
Qed.

Lemma build_message_fields (subject to_ : string) (s : SMTPSettings) (body : string)
    (m : EmailMessage) :
  build_message subject to_ s body = Ok m ->
  msg_subject m = subject /\ msg_to m = to_ /\ msg_content m = body
  /\ formataddr (sender_name s) (from_email s) = Ok (msg_from m).
Proof.
  unfold build_message.
  destruct (set_header "Subject" subject); [discriminate|].
  destruct (set_header "To" to_); [discriminate|].
  destruct (formataddr (sender_name s) (from_email s)) as [from_|]; [|discriminate].
  destruct (set_header "From" from_); [discriminate|].
  destruct (set_content body); [discriminate|].
  intros Hm. injection Hm as <-. auto.
Qed.

Lemma build_error_ready (w : World) (trigger : Trigger) (user : UserResponse)
    (context : gmap string Py.Val) (s : SMTPSettings) :
  ready w trigger user s ->
  build_error w trigger user context
  = match message_for trigger user context s with Ok _ => None | Raise e => Some e end.
Proof.
  intros (Hmail & Hs & Hp). unfold build_error. rewrite Hmail. cbv zeta.
  rewrite Hs, Hp. reflexivity.
Qed.

(** A ready dispatcher does not skip the send: filling in the message
    raises, or the connection is opened. *)
Lemma send_ready (trigger : Trigger) (user : UserResponse) (context : gmap string Py.Val)
    (w : World) (s : SMTPSettings) :
  ready w trigger user s ->
  match message_for trigger user context s with
  | Ok m =>
      exists rest,
        send trigger user context w
        = (Ok tt,
           set_log (after_send w user)
             (log w ++ SMTPConnect (use_ssl s) (host s) (port s) :: rest))
        /\ (quiet w -> rest = (smtp_steps s m ++ [SMTPQuit])%list)
  | Raise e => send trigger user context w = (Raise e, after_send w user)
  end.
Proof.
  intros Hr.
  destruct (send_outcome trigger user context w) as (new & Hrun & Herr & _ & Hok).
  rewrite (build_error_ready _ _ _ _ _ Hr) in Hrun, Herr.
  destruct (message_for trigger user context s) as [m|e] eqn:Hm.
  - destruct (Hok s m Hr Hm) as (Hshape & Hq).
    destruct (session_attempt_starts _ _ _ Hshape) as (rest & ->).
    exists rest. split; [exact Hrun|].
    intros Hquiet. specialize (Hq Hquiet). unfold smtp_session in Hq.
    injection Hq as Hq. exact Hq.
  - rewrite (Herr e eq_refl), app_nil_r, <- (after_send_log w user), set_log_keep in Hrun.
    exact Hrun.
Qed.

Lemma smtp_steps_send (s : SMTPSettings) (m : EmailMessage) :
  SMTPSendMessage m ∈ (smtp_steps s m ++ [SMTPQuit])%list.
Proof.
  unfold smtp_steps. rewrite <- !app_assoc.
  apply elem_of_app. right. apply elem_of_app. right.
  apply elem_of_cons. left. reflexivity.
Qed.

(** A dispatcher that is not ready skips the send. *)
Lemma send_not_ready (trigger : Trigger) (user : UserResponse)
    (context : gmap string Py.Val) (w : World) :
  (forall s, ~ ready w trigger user s) ->
  send trigger user context w = (Ok tt, after_send w user).
Proof.
  intros Hno.
  destruct (send_outcome trigger user context w) as (new & Hrun & _ & Hnot & _).
  pose proof (build_error_spec w trigger user context) as Hb.
  destruct (build_error w trigger user context) as [e|].
  - destruct Hb as (s & Hr & _). destruct (Hno s Hr).
  - rewrite (Hnot Hno), app_nil_r, <- (after_send_log w user), set_log_keep in Hrun.
    exact Hrun.
Qed.

(** C9 (as amended): for [reached_usage_percent] and [reached_days_left],
    when the numeric value is missing from the context the rendered body is
    the greeting, the user-details summary and the sign-off, without the
    numeric line, and the subject is not empty.  No trigger ever renders to an
    empty subject or body, so rendering never causes a send to be skipped.  A
    dispatcher that is ready for the trigger (the user has an address, SMTP is
    configured, the trigger is enabled) fills in a message with that body
    addressed to the user; once the message is filled in it opens the SMTP
    connection and, when the transport does not fail, hands the message over;
    the one other outcome is that filling in the message raises, and then
    that exception is what [send] raises.  A dispatcher that is not ready
    skips the send, whatever was rendered. *)
Theorem C9_missing_number_still_sent (trigger : Trigger) (user : UserResponse)
    (context : gmap string Py.Val) (w : World) (s : SMTPSettings)
    (Hmissing : trigger = EmailNotificationTrigger.reached_usage_percent
                  /\ Py.dict_get context "percent" = Py.VNone
                \/ trigger = EmailNotificationTrigger.reached_days_left
                  /\ Py.dict_get context "days" = Py.VNone)
    (Hready : ready w trigger user s) :
  let body := paragraphs (email_or_username user) [_format_user_details user] in
  (_render trigger user context).2 = body
  /\ Py.str_truthy (_render trigger user context).1 = true
  /\ match message_for trigger user context s with
     | Ok m =>
         msg_content m = body
         /\ Some (msg_to m) = ur_email user
         /\ exists rest,
              send trigger user context w
              = (Ok tt,
                 set_log (after_send w user)
                   (log w ++ SMTPConnect (use_ssl s) (host s) (port s) :: rest))
              /\ (quiet w -> SMTPSendMessage m ∈ rest)
     | Raise e => send trigger user context w = (Raise e, after_send w user)
     end
  /\ (forall t c,
        Py.str_truthy (_render t user c).1 = true
        /\ Py.str_truthy (_render t user c).2 = true)
  /\ (forall t c w' s',
        ready w' t user s' ->
        match message_for t user c s' with
        | Ok _ =>
            exists rest,
              send t user c w'
              = (Ok tt,
                 set_log (after_send w' user)
                   (log w' ++ SMTPConnect (use_ssl s') (host s') (port s') :: rest))
        | Raise e => send t user c w' = (Raise e, after_send w' user)
        end)
  /\ (forall t c w',
        (forall s', ~ ready w' t user s') ->
        send t user c w' = (Ok tt, after_send w' user)).
Proof.
  intros body.
  pose proof (render_without_number trigger user context Hmissing) as Hbody.
  repeat apply conj.
  - exact Hbody.
  - apply render_truthy.
  - pose proof (send_ready trigger user context w s Hready) as Hsend.
    destruct (message_for trigger user context s) as [m|e] eqn:Hm; [|exact Hsend].
    apply build_message_fields in Hm as (_ & Hto & Hcontent & _).
    repeat apply conj.
    + rewrite Hcontent. exact Hbody.
    + rewrite Hto. destruct Hready as (Hmail & _).
      destruct (ur_email user); [reflexivity | discriminate].
    + destruct Hsend as (rest & Hrun & Hq). exists rest. split; [exact Hrun|].
      intros Hquiet. rewrite (Hq Hquiet). apply smtp_steps_send.
  - intros t c. apply render_truthy.
  - intros t c w' s' Hr.
    pose proof (send_ready t user c w' s' Hr) as Hsend.
    destruct (message_for t user c s') as [m|e]; [|exact Hsend].
    destruct Hsend as (rest & Hrun & _). exists rest. exact Hrun.
  - intros t c w'. apply send_not_ready.
Qed.

(** ** The lifecycle entry points *)




















(** * Further properties of the dispatcher *)



(** ** [send], in full *)




(** ** The magic-link mail *)






(** * Further properties of the portal *)




(** ** The client address *)




(** * Further properties of the configuration surface *)








(** ** The cache without invalidation *)



(** ** A configuration write followed by an event *)






End App.

(** * Instances on sample data *)

(** C4, the claim as stated fails: plain SMTP settings, with neither flag
    enabled, pass validation although it is not the case that exactly one of
    the two flags is on. *)
Lemma C4_plain_smtp_is_accepted :
  validate_smtp_settings Sample.plain_smtp = Ok Sample.plain_smtp
  /\ xorb (upd_use_tls Sample.plain_smtp) (upd_use_ssl Sample.plain_smtp) = false.
Proof.
  split; [|reflexivity].
  unfold validate_smtp_settings, validate_tls_ssl.
  rewrite lookup_singleton_eq. reflexivity.
Qed.

(** The token of the sample store is consumed once: the first attempt yields
    its user, the second is refused as already used. *)
Lemma C1_consume_twice_witness :
  (find_token (Sample.hash "s3cr3t") (db_tokens (db Sample.world)) = Some Sample.token_row
   /\ tok_used_at Sample.token_row = None
   /\ clock Sample.world <= tok_expires_at Sample.token_row
   /\ get_user_by_id (db Sample.world) (tok_user_id Sample.token_row) = Some Sample.alice)
  /\ (consume_user_login_token Sample.hash "s3cr3t" (Some "10.0.0.9") None Sample.world).1
     = Ok (Some Sample.alice, None)
  /\ (consume_user_login_token Sample.hash "s3cr3t" None None
        (set_clock
           (consume_user_login_token Sample.hash "s3cr3t" (Some "10.0.0.9") None
              Sample.world).2 1300)).1
     = Ok (None, Some AlreadyUsed).
Proof.
  assert (H1 : find_token (Sample.hash "s3cr3t") (db_tokens (db Sample.world))
               = Some Sample.token_row) by reflexivity.
  assert (H2 : tok_used_at Sample.token_row = None) by reflexivity.
  assert (H3 : clock Sample.world <= tok_expires_at Sample.token_row)
    by (vm_compute; discriminate).
  assert (H4 : get_user_by_id (db Sample.world) (tok_user_id Sample.token_row)
               = Some Sample.alice) by reflexivity.
  pose proof (C1_consume_twice Sample.hash Sample.world "s3cr3t" Sample.token_row
                Sample.alice (Some "10.0.0.9") None None None 1300 H1 H2 H3 H4) as H.
  cbv zeta in H. destruct H as (Hfirst & _ & _ & _ & _ & Hsecond & _).
  split; [auto|]. split; [exact Hfirst|]. rewrite Hsecond. reflexivity.
Defined.


(** C5, at the failing input.  The stored sender name holds a line feed, the
    creation notice is enabled and the new user has an address; no reporter
    and no call to the mail server fails.  The entry point [user_created]
    raises the [ValueError] of the [From] header: it has called the Telegram
    reporter and made the record for the sink, and the Discord reporter is
    never called. *)
Lemma C5_header_error_leaves_entry_point :
  let run :=
    user_created Sample.format_bytes Sample.strftime Sample.set_header Sample.formataddr
      Sample.set_content true Sample.bob 7 Sample.root Sample.two_line_world in
  quiet Sample.two_line_world
  /\ from_name Sample.two_line_sender = Some ("VPN" +:+ Py.nl +:+ "Admin")
  /\ run.1 = Raise (ValueError
                      "Header values may not contain linefeed or carriage return characters")
  /\ log run.2
     = [Telegram "report_new_user"
          [("user_id", Py.VInt 7); ("username", Py.VStr "bob@example.org");
           ("by", Py.VStr "root"); ("expire_date", Py.VNone); ("data_limit", Py.VNone)];
        Notify EmailNotificationTrigger.user_created "bob"]
  /\ (forall fn kwargs, Discord fn kwargs ∉ log run.2).
Proof.
  intros run.
  assert (Hlog : log run.2
                 = [Telegram "report_new_user"
                      [("user_id", Py.VInt 7); ("username", Py.VStr "bob@example.org");
                       ("by", Py.VStr "root"); ("expire_date", Py.VNone);
                       ("data_limit", Py.VNone)];
                    Notify EmailNotificationTrigger.user_created "bob"])
    by (vm_compute; reflexivity).
  repeat apply conj.
  - intros l c. reflexivity.
  - reflexivity.
  - vm_compute. reflexivity.
  - exact Hlog.
  - intros fn kwargs Hin. rewrite Hlog in Hin.
    repeat (apply elem_of_cons in Hin as [Hin|Hin]; [discriminate|]).
    apply elem_of_nil in Hin. exact Hin.
Qed.

(** C8, the claim as stated fails: the lookup is not case-insensitive.  In a
    registry that matches names exactly, [Alice@Example.org] is registered
    and the request asks for [ALICE@EXAMPLE.ORG], the same identifier up to
    case.  The exact lookup finds nobody, the fallback looks up
    [alice@example.org] and finds nobody either, and the request is treated
    as matching no account: nothing is stored and nothing is queued. *)
Lemma C8_other_casing_is_not_found :
  Sample.get_user_by_username Sample.mixed_case_store "Alice@Example.org" = Some Sample.Alice
  /\ Sample.lower "ALICE@EXAMPLE.ORG" = Sample.lower "Alice@Example.org"
  /\ Sample.get_user_by_username Sample.mixed_case_store "ALICE@EXAMPLE.ORG" = None
  /\ lookup_dbuser Sample.get_user_by_username Sample.strip Sample.lower
       Sample.mixed_case_store "ALICE@EXAMPLE.ORG" = None
  /\ request_magic_link Sample.hash Sample.get_user_by_username Sample.strip Sample.lower 15
       "ALICE@EXAMPLE.ORG" Sample.request Sample.mixed_case_world
     = (Ok ({| detail := GENERIC_MESSAGE |}, []), Sample.mixed_case_world).
Proof.
  repeat apply conj; vm_compute; reflexivity.
Qed.

(** An address typed with capitals and stray blanks finds the user registered
    under its lowercased form. *)
Lemma C8_lowercase_fallback_witness :
  Sample.get_user_by_username Sample.store (Sample.strip " Alice@Example.ORG ") = None
  /\ lookup_dbuser Sample.get_user_by_username Sample.strip Sample.lower
       Sample.store " Alice@Example.ORG "
     = Some Sample.alice.
Proof.
  assert (H : Sample.get_user_by_username Sample.store (Sample.strip " Alice@Example.ORG ")
              = None) by reflexivity.
  split; [exact H|].
  destruct (C8_lowercase_fallback Sample.hash Sample.get_user_by_username
              Sample.strip Sample.lower 15 Sample.store " Alice@Example.ORG " H) as [Hl _].
  rewrite Hl. reflexivity.
Defined.

(** C9, the claim as stated fails.  In both runs the number is missing and
    the rendered subject and body are not empty, and no call to the outside
    fails.  First run: the day alert is not enabled in the sample world, and
    the send is skipped -- it returns without a call -- although nothing
    rendered is empty.  Second run: the usage alert is enabled and the
    dispatcher is ready, but the stored sender name holds a line feed; the
    [From] header is refused, [send] raises and no message is sent. *)
Lemma C9_number_missing_and_nothing_sent :
  let render := _render Sample.format_bytes Sample.strftime in
  let send := send Sample.format_bytes Sample.strftime Sample.set_header Sample.formataddr
                Sample.set_content in
  (Py.dict_get ∅ "days" = Py.VNone
   /\ Py.str_truthy (render EmailNotificationTrigger.reached_days_left Sample.bob ∅).1 = true
   /\ Py.str_truthy (render EmailNotificationTrigger.reached_days_left Sample.bob ∅).2 = true
   /\ send EmailNotificationTrigger.reached_days_left Sample.bob ∅ Sample.world
      = (Ok tt, Sample.world)
   /\ log Sample.world = [])
  /\ (Py.dict_get ∅ "percent" = Py.VNone
      /\ ready Sample.two_line_world EmailNotificationTrigger.reached_usage_percent
           Sample.bob Sample.two_line_sender
      /\ Py.str_truthy
           (render EmailNotificationTrigger.reached_usage_percent Sample.bob ∅).2 = true
      /\ send EmailNotificationTrigger.reached_usage_percent Sample.bob ∅
           Sample.two_line_world
         = (Raise (ValueError
                     "Header values may not contain linefeed or carriage return characters"),
            Sample.two_line_world)
      /\ log Sample.two_line_world = []).
Proof.
  cbv zeta. repeat apply conj; try (vm_compute; reflexivity).
Qed.

(** A usage alert without its percentage still goes out from the sample
    world: the connection to the configured host is opened and the message
    is handed over. *)
Lemma C9_missing_number_still_sent_witness :
  ((EmailNotificationTrigger.reached_usage_percent
    = EmailNotificationTrigger.reached_usage_percent
    /\ Py.dict_get ∅ "percent" = Py.VNone
    \/ EmailNotificationTrigger.reached_usage_percent
       = EmailNotificationTrigger.reached_days_left
       /\ Py.dict_get ∅ "days" = Py.VNone)
   /\ ready Sample.world EmailNotificationTrigger.reached_usage_percent Sample.bob Sample.smtp)
  /\ (_render Sample.format_bytes Sample.strftime
        EmailNotificationTrigger.reached_usage_percent Sample.bob ∅).2
     = paragraphs "bob@example.org"
         [_format_user_details Sample.format_bytes Sample.strftime Sample.bob]
  /\ exists m rest,
       message_for Sample.format_bytes Sample.strftime Sample.set_header Sample.formataddr
         Sample.set_content EmailNotificationTrigger.reached_usage_percent Sample.bob ∅
         Sample.smtp = Ok m
       /\ (send Sample.format_bytes Sample.strftime Sample.set_header Sample.formataddr
             Sample.set_content EmailNotificationTrigger.reached_usage_percent Sample.bob ∅
             Sample.world).2
          = set_log Sample.world (SMTPConnect false "mail.example.org" 587 :: rest)
       /\ SMTPSendMessage m ∈ rest.
Proof.
  assert (Hmissing :
            EmailNotificationTrigger.reached_usage_percent
            = EmailNotificationTrigger.reached_usage_percent
            /\ Py.dict_get ∅ "percent" = Py.VNone
            \/ EmailNotificationTrigger.reached_usage_percent
               = EmailNotificationTrigger.reached_days_left
               /\ Py.dict_get ∅ "days" = Py.VNone).
  { left. split; [reflexivity|]. unfold Py.dict_get. rewrite lookup_empty. reflexivity. }
  assert (Hready : ready Sample.world EmailNotificationTrigger.reached_usage_percent
                     Sample.bob Sample.smtp).
  { unfold ready. split; [reflexivity|]. split; [reflexivity|].
    change (_preferences (cache (_ensure_configuration Sample.world).2))
      with ({[ EmailNotificationTrigger.reached_usage_percent := true ]} : gmap Trigger bool).
    apply lookup_singleton_eq. }
  pose proof (C9_missing_number_still_sent Sample.format_bytes Sample.strftime
                Sample.set_header Sample.formataddr Sample.set_content
                EmailNotificationTrigger.reached_usage_percent Sample.bob ∅
                Sample.world Sample.smtp Hmissing Hready) as H.
  cbv zeta in H. destruct H as (Hbody & _ & Hsend & _).
  split; [split; assumption|]. split; [exact Hbody|].
  destruct (message_for Sample.format_bytes Sample.strftime Sample.set_header
              Sample.formataddr Sample.set_content
              EmailNotificationTrigger.reached_usage_percent Sample.bob ∅ Sample.smtp)
    as [m|e] eqn:Hm; [|vm_compute in Hm; discriminate Hm].
  destruct Hsend as (_ & _ & rest & Hrun & Hsent).
  exists m, rest. split; [reflexivity|]. split; [rewrite Hrun; reflexivity|].
  apply Hsent. intros l c. reflexivity.
Defined.

(** ** The further properties on sample data *)








